(** * k8s-cloud-provider: resource-graph planning, retry and rate limiting

    A shallow embedding of the parts of the repository that the
    specification talks about:

    - [exec]: the retry decorator [retriableAction] and the fakes of its
      test file;
    - [backendservice]: [backendServiceNode.Diff] and
      [backendServiceUpdateAction];
    - [cloud]: the composite and per-project rate limiters.

    Go methods with a pointer receiver are state transformers over an
    explicit world [W]; a Go [error] that may be [nil] is an
    [option error]. *)

From Stdlib Require Import ZArith Lia.
From stdpp Require Import gmap strings list fin_maps.

Local Open Scope Z_scope.
Local Open Scope string_scope.
Local Open Scope list_scope.

(** ** Go basics *)

(** Go's [int] on the 64-bit targets of the repository: two's complement,
    arithmetic wraps around. *)
Definition int_wrap (z : Z) : Z := (z + 2 ^ 63) `mod` 2 ^ 64 - 2 ^ 63.

(** A Go [error] value.  [fmt.Errorf] without [%w] (and [errors.New])
    yields an [errorString]; with [%w] it yields a [wrapError] that keeps
    the wrapped error next to the text printed before it. *)
Inductive error : Type :=
  | errorString (msg : string)
  | wrapError (msg : string) (err : error).

Fixpoint Error (e : error) : string :=
  match e with
  | errorString msg => msg
  | wrapError msg err => msg +:+ Error err
  end.

Global Instance error_eq_dec : EqDecision error.
Proof. solve_decision. Defined.

(** [strings.Join]. *)
Fixpoint Join (elems : list string) (sep : string) : string :=
  match elems with
  | [] => ""
  | [s] => s
  | s :: rest => s +:+ sep +:+ Join rest sep
  end.

(** ** Package meta and cloud.ResourceID *)

Module meta.

(** Modelled from the spec: package [meta] is not among the sources.  The
    spec gives a key a name and a scope "Global, Regional(region),
    Zonal(zone)"; [Type] is the tag of the scope. *)
Inductive KeyType : Type := Global | Regional | Zonal.

Inductive Scope : Type :=
  | ScopeGlobal
  | ScopeRegional (region : string)
  | ScopeZonal (zone : string).

Record Key : Type := { Name : string; scope : Scope }.

Definition Type_ (k : Key) : KeyType :=
  match scope k with
  | ScopeGlobal => Global
  | ScopeRegional _ => Regional
  | ScopeZonal _ => Zonal
  end.

Definition GlobalKey (name : string) : Key :=
  {| Name := name; scope := ScopeGlobal |}.

Definition RegionalKey (name region : string) : Key :=
  {| Name := name; scope := ScopeRegional region |}.

Definition ZonalKey (name zone : string) : Key :=
  {| Name := name; scope := ScopeZonal zone |}.

Global Instance KeyType_eq_dec : EqDecision KeyType.
Proof. solve_decision. Defined.

Global Instance Scope_eq_dec : EqDecision Scope.
Proof. solve_decision. Defined.

Global Instance Key_eq_dec : EqDecision Key.
Proof. solve_decision. Defined.

End meta.

(** Modelled from the spec: [cloud.ResourceID] is not among the sources; the
    code reads its [ProjectID] and [Key] fields. *)
Record ResourceID : Type := { ProjectID : string; Key : meta.Key }.

Global Instance ResourceID_eq_dec : EqDecision ResourceID.
Proof. solve_decision. Defined.

(** ** Package exec *)

Module exec.

(** Modelled from the spec: the event type is not among the sources.  The
    glossary names the two signals. *)
Inductive Event : Type :=
  | ExistsEvent (id : ResourceID)
  | DoesNotExistEvent (id : ResourceID).

Global Instance Event_eq_dec : EqDecision Event.
Proof. solve_decision. Defined.

(** [EventList] is a slice of events; the [nil] slice is the empty list. *)
Definition EventList : Type := list Event.

(** The action types that the sources name; [ActionTypeUnset] is the zero
    value left by a literal that does not set the field. *)
Inductive ActionType : Type := ActionTypeUnset | ActionTypeUpdate.

Record ActionMetadata : Type := {
  Name : string;
  Type_ : ActionType;
  Summary : string
}.

Section Actions.

(** [W] is the mutable state that the receivers, the cloud and the clock
    behind a context live in.  [Context] and [Cloud] are the values
    passed as [ctx] and [c]; [ctx_Err ctx w] is [ctx.Err()] read in
    world [w]. *)
Variables (W Context Cloud : Type).
Variable ctx_Err : Context -> W -> option error.

(** The [Action] interface. *)
Record Action : Type := {
  CanRun : W -> bool;
  Signal : Event -> W -> bool * W;
  Run : Context -> Cloud -> W -> EventList * option error * W;
  DryRun : W -> EventList;
  String : W -> string;
  PendingEvents : W -> EventList;
  Metadata : W -> ActionMetadata
}.

(** RetryProvider decides if action should be retried on error. *)
Record RetryProvider : Type := {
  IsRetriable : error -> W -> bool * W
}.

(** retriableAction is a decorator to the action adding retry
    mechanism.  (The sources hold a second version of the file, in which
    the action is an embedded field and the methods that only hand over are
    promoted ones; [Run] and [String] are the same.) *)
Record retriableAction : Type := {
  a : Action;
  retryProvider : RetryProvider
}.

Definition NewRetriableAction (a : Action) (rp : RetryProvider)
  : retriableAction :=
  {| a := a; retryProvider := rp |}.

Definition retriableAction_CanRun (ra : retriableAction) (w : W) : bool :=
  CanRun (a ra) w.

Definition retriableAction_Signal (ra : retriableAction) (e : Event) (w : W)
  : bool * W :=
  Signal (a ra) e w.

(** What a call of [Run] has done after a bounded number of loop
    iterations: it has returned, or it is about to run the wrapped
    action once more. *)
Inductive Outcome : Type :=
  | Returned (events : EventList) (err : option error) (w : W)
  | StillRunning (w : W).

(** [Run]: the loop
    [for run := true; run; run = IsRetriable(err) && ctx.Err() == nil].
    [fuel] bounds the number of iterations, that is of calls to the
    wrapped action.  [&&] evaluates [ctx.Err()] only after [IsRetriable]
    has answered true. *)
Fixpoint retriableAction_Run (fuel : nat) (ra : retriableAction)
    (ctx : Context) (c : Cloud) (w : W) : Outcome :=
  match fuel with
  | O => StillRunning w
  | S fuel' =>
      let '(events, err, w1) := Run (a ra) ctx c w in
      match err with
      | None => Returned events None w1
      | Some e =>
          let '(run, w2) := IsRetriable (retryProvider ra) e w1 in
          if run && bool_decide (ctx_Err ctx w2 = None)
          then retriableAction_Run fuel' ra ctx c w2
          else Returned events (Some e) w2
      end
  end.

Definition retriableAction_DryRun (ra : retriableAction) (w : W)
  : EventList :=
  DryRun (a ra) w.

(** String wraps Action name with retry information. *)
Definition retriableAction_String (ra : retriableAction) (w : W) : string :=
  String (a ra) w +:+ " with retry".

Definition retriableAction_PendingEvents (ra : retriableAction) (w : W)
  : EventList :=
  PendingEvents (a ra) w.

Definition retriableAction_Metadata (ra : retriableAction) (w : W)
  : ActionMetadata :=
  Metadata (a ra) w.

(** The world in which the loop begins its iteration number [k]
    (counting from 0), when it gets that far: the [k] runs before it
    all failed, were found retriable, and the context was live. *)
Fixpoint iteration (k : nat) (ra : retriableAction) (ctx : Context)
    (c : Cloud) (w : W) : option W :=
  match k with
  | O => Some w
  | S k' =>
      let '(_, err, w1) := Run (a ra) ctx c w in
      match err with
      | None => None
      | Some e =>
          let '(run, w2) := IsRetriable (retryProvider ra) e w1 in
          if run && bool_decide (ctx_Err ctx w2 = None)
          then iteration k' ra ctx c w2
          else None
      end
  end.

End Actions.

Arguments CanRun {W Context Cloud}.
Arguments Signal {W Context Cloud}.
Arguments Run {W Context Cloud}.
Arguments DryRun {W Context Cloud}.
Arguments String {W Context Cloud}.
Arguments PendingEvents {W Context Cloud}.
Arguments Metadata {W Context Cloud}.
Arguments IsRetriable {W}.
Arguments a {W Context Cloud}.
Arguments retryProvider {W Context Cloud}.
Arguments NewRetriableAction {W Context Cloud}.
Arguments Returned {W}.
Arguments StillRunning {W}.
Arguments retriableAction_CanRun {W Context Cloud}.
Arguments retriableAction_Signal {W Context Cloud}.
Arguments retriableAction_Run {W Context Cloud}.
Arguments retriableAction_DryRun {W Context Cloud}.
Arguments retriableAction_String {W Context Cloud}.
Arguments retriableAction_PendingEvents {W Context Cloud}.
Arguments retriableAction_Metadata {W Context Cloud}.
Arguments iteration {W Context Cloud}.

(** *** The fakes of the test file *)

(** fakeAction will return error for n actions defined in
    errorRunThreshold, runCtr counts all action executions. *)
Record fakeAction : Type := { runCtr : Z; errorRunThreshold : Z }.

(** fakeRetryProvider: [ctr] counts all retry provider calls,
    [shouldRetry] tells if the action should be rerun. *)
Record fakeRetryProvider : Type := { ctr : Z; shouldRetry : bool }.

(** The two objects a test allocates. *)
Record TestHeap : Type := { fa : fakeAction; frp : fakeRetryProvider }.

(** [context.Canceled] and [context.DeadlineExceeded]. *)
Definition Canceled : error := errorString "context canceled".
Definition DeadlineExceeded : error :=
  errorString "context deadline exceeded".

(** The contexts of the tests: [context.Background()], never cancelled; a
    context that is already cancelled; and a context with a deadline, which
    passes while the fake action runs for the [n]th time. *)
Inductive TestContext : Type :=
  | Background
  | Cancelled
  | WithDeadline (n : Z).

Definition TestContext_Err (ctx : TestContext) (h : TestHeap) : option error :=
  match ctx with
  | Background => None
  | Cancelled => Some Canceled
  | WithDeadline n =>
      if bool_decide (n <= runCtr (fa h)) then Some DeadlineExceeded else None
  end.

(** The tests pass a [nil] cloud. *)
Definition NilCloud : Type := unit.

Definition fakeAction_Run (ctx : TestContext) (c : NilCloud) (h : TestHeap)
  : EventList * option error * TestHeap :=
  let f := {| runCtr := int_wrap (runCtr (fa h) + 1);
              errorRunThreshold := errorRunThreshold (fa h) |} in
  let h' := {| fa := f; frp := frp h |} in
  if bool_decide (errorRunThreshold f > runCtr f)
  then ([], Some (errorString "Action in error"), h')
  else ([], None, h').

Definition fakeAction_Action : Action TestHeap TestContext NilCloud :=
  {| CanRun := fun _ => true;
     Signal := fun _ h => (false, h);
     Run := fakeAction_Run;
     DryRun := fun _ => [];
     String := fun _ => "fakeAction";
     PendingEvents := fun _ => [];
     Metadata := fun _ =>
       {| Name := "fakeAction"; Type_ := ActionTypeUnset; Summary := "" |} |}.

(** IsRetriable returns info if action should be rerun.  Every call to
    this function increments counter. *)
Definition fakeRetryProvider_IsRetriable (e : error) (h : TestHeap)
  : bool * TestHeap :=
  let p := {| ctr := int_wrap (ctr (frp h) + 1);
              shouldRetry := shouldRetry (frp h) |} in
  (shouldRetry p, {| fa := fa h; frp := p |}).

Definition fakeRetryProvider_RetryProvider : RetryProvider TestHeap :=
  {| IsRetriable := fakeRetryProvider_IsRetriable |}.

(** The heap of [TestRetriableAction]:
    [fa := &fakeAction{errorRunThreshold: n}],
    [frp := &fakeRetryProvider{shouldRetry: b}]. *)
Definition testHeap (n : Z) (b : bool) : TestHeap :=
  {| fa := {| runCtr := 0; errorRunThreshold := n |};
     frp := {| ctr := 0; shouldRetry := b |} |}.

Definition testRetriableAction
  : retriableAction TestHeap TestContext NilCloud :=
  NewRetriableAction fakeAction_Action fakeRetryProvider_RetryProvider.

(** *** Counting the calls

    The device of [fakeAction.runCtr] and [fakeRetryProvider.ctr], for any
    action and any provider: the world is paired with two counters, the
    decorated action bumps the first at every [Run], the decorated provider
    bumps the second at every [IsRetriable].  Nothing else changes. *)

Record Calls : Type := { runs : nat; checks : nat }.

Definition noCalls : Calls := {| runs := 0; checks := 0 |}.

Definition countingAction {W Context Cloud : Type} (act : Action W Context Cloud)
  : Action (W * Calls) Context Cloud :=
  {| CanRun := fun wc => CanRun act wc.1;
     Signal := fun e wc =>
       let '(b, w') := Signal act e wc.1 in (b, (w', wc.2));
     Run := fun ctx c wc =>
       let '(events, err, w') := Run act ctx c wc.1 in
       (events, err,
        (w', {| runs := S (runs wc.2); checks := checks wc.2 |}));
     DryRun := fun wc => DryRun act wc.1;
     String := fun wc => String act wc.1;
     PendingEvents := fun wc => PendingEvents act wc.1;
     Metadata := fun wc => Metadata act wc.1 |}.

Definition countingRetryProvider {W : Type} (rp : RetryProvider W)
  : RetryProvider (W * Calls) :=
  {| IsRetriable := fun e wc =>
       let '(b, w') := IsRetriable rp e wc.1 in
       (b, (w', {| runs := runs wc.2; checks := S (checks wc.2) |})) |}.

Definition counting_ctx_Err {W Context : Type}
    (ctx_Err : Context -> W -> option error)
  : Context -> W * Calls -> option error :=
  fun ctx wc => ctx_Err ctx wc.1.

Definition counting {W Context Cloud : Type}
    (ra : retriableAction W Context Cloud)
  : retriableAction (W * Calls) Context Cloud :=
  NewRetriableAction (countingAction (a ra))
                     (countingRetryProvider (retryProvider ra)).

(** The world an outcome carries. *)
Definition world {W : Type} (o : Outcome W) : W :=
  match o with
  | Returned _ _ w => w
  | StillRunning w => w
  end.

(** An outcome of the counting run with the counters dropped. *)
Definition uncounted {W : Type} (o : Outcome (W * Calls)) : Outcome W :=
  match o with
  | Returned events err wc => Returned events err wc.1
  | StillRunning wc => StillRunning wc.1
  end.

End exec.

(** ** Package api *)

Module api.

(** Modelled from the spec: package [api] is not among the sources.  "Field
    paths are structural ([Backends[0].Group]) and used as diff-delta keys":
    a path is the sequence of its steps, built by [Pointer], [Field] and
    [Index] from the empty path [api.Path{}], and two paths are [Equal] when
    they have the same steps. *)
Inductive PathElem : Type :=
  | PointerElem
  | FieldElem (name : string)
  | IndexElem (i : Z).

Global Instance PathElem_eq_dec : EqDecision PathElem.
Proof. solve_decision. Defined.

Definition Path : Type := list PathElem.

Definition Pointer (p : Path) : Path := (p ++ [PointerElem])%list.

Definition Field (p : Path) (name : string) : Path :=
  (p ++ [FieldElem name])%list.

Definition Index (p : Path) (i : Z) : Path := (p ++ [IndexElem i])%list.

Definition Equal (p other : Path) : bool := bool_decide (p = other).

(** Modelled from the spec: "Diff is the list of field deltas".  A delta has
    its path and the two values, of Go type [any]; [Val] stands for them. *)
Record DiffItem (Val : Type) : Type := {
  Path_ : Path;
  A : Val;
  B : Val
}.

Record DiffResult (Val : Type) : Type := {
  Items : list (DiffItem Val)
}.

Arguments Path_ {Val}.
Arguments A {Val}.
Arguments B {Val}.
Arguments Items {Val}.

(** An empty diff is one without deltas. *)
Definition HasDiff {Val : Type} (r : DiffResult Val) : bool :=
  bool_decide (0 < length (Items r))%nat.

End api.

(** ** Package rnode *)

Module rnode.

(** The operations that the sources name; [OpUnknown] is what an empty
    plan slot reports. *)
Inductive Operation : Type :=
  | OpUnknown
  | OpNothing
  | OpCreate
  | OpRecreate
  | OpUpdate
  | OpDelete.

Global Instance Operation_eq_dec : EqDecision Operation.
Proof. solve_decision. Defined.

(** [PlanDetails]; the [Diff] field is a pointer, [nil] when it is not
    set. *)
Record PlanDetails (Val : Type) : Type := {
  Operation_ : Operation;
  Why : string;
  Diff : option (api.DiffResult Val)
}.

Arguments Operation_ {Val}.
Arguments Why {Val}.
Arguments Diff {Val}.

(** Modelled from the spec: [rnode.NodeBase] is not among the sources.  A
    node has an "id; ownership; state; ... a plan slot (initially
    empty)". *)
Inductive OwnershipStatus : Type :=
  | OwnershipUnknown
  | OwnershipManaged
  | OwnershipExternal.

Inductive NodeState : Type :=
  | NodeUnknown
  | NodeExists
  | NodeDoesNotExist
  | NodeStateError.

Record NodeBase (Val : Type) : Type := {
  ID : ResourceID;
  State : NodeState;
  Ownership : OwnershipStatus;
  Plan : option (PlanDetails Val)
}.

Arguments ID {Val}.
Arguments State {Val}.
Arguments Ownership {Val}.
Arguments Plan {Val}.

(** [n.Plan().Op()]. *)
Definition Plan_Op {Val : Type} (p : option (PlanDetails Val)) : Operation :=
  match p with
  | Some pd => Operation_ pd
  | None => OpUnknown
  end.

End rnode.

(** ** Package backendservice *)

Module backendservice.

Section BackendService.

(** What the package takes from packages that are not among the sources:
    - [BackendService], the frozen resource, with [resource_Diff got want]
      for [got.Diff(want)] and [ToGA] for its GA projection, of type [GA]
      ([compute.BackendService]);
    - [Val], the values of a delta, printed by [fmt_v] for [%v];
    - [ResourceID_String] and [Operation_String], what [%s] prints. *)
Variables (BackendService GA Val : Type).
Variable fmt_v : Val -> string.
Variable resource_Diff :
  BackendService -> BackendService -> api.DiffResult Val + error.
Variable ToGA : BackendService -> GA + error.
Variable ResourceID_String : ResourceID -> string.
Variable Operation_String : rnode.Operation -> string.

(** [backendServiceNode], with its resource.  A node built without a
    resource and a nil pointer to a node are not values of this type: the
    methods below dereference both, and Go panics there. *)
Record backendServiceNode : Type := {
  NodeBase : rnode.NodeBase Val;
  resource : BackendService
}.

(** A value of interface type [rnode.Node]: a [*backendServiceNode], a node
    of another package (of which only the name of its type matters here),
    or the [nil] interface.  Nodes are the non-nil pointers that the
    builders return. *)
Inductive Node : Type :=
  | BackendServiceNode (n : backendServiceNode)
  | OtherNode (goType : string)
  | NilNode.

(** What [%T] prints. *)
Definition fmt_T (n : Node) : string :=
  match n with
  | BackendServiceNode _ => "*backendservice.backendServiceNode"
  | OtherNode goType => goType
  | NilNode => "<nil>"
  end.

(** [api.Path{}.Pointer().Field("LoadBalancingScheme")]. *)
Definition LoadBalancingSchemePath : api.Path :=
  api.Field (api.Pointer []) "LoadBalancingScheme".

(** A delta on the field [LoadBalancingScheme]. *)
Definition onLoadBalancingScheme (delta : api.DiffItem Val) : Prop :=
  api.Path_ delta = LoadBalancingSchemePath.

(** The closure [planRecreate] over [needsRecreate] and [details], applied
    to the text that [fmt.Sprintf] has made. *)
Definition planRecreate (vars : bool * list string) (text : string)
  : bool * list string :=
  (true, (vars.2 ++ [text])%list).

(** The loop over [diff.Items]; the [switch] has one case and no default. *)
Definition planItems (items : list (api.DiffItem Val))
    (vars : bool * list string) : bool * list string :=
  fold_left
    (fun vars delta =>
       if api.Equal (api.Path_ delta) LoadBalancingSchemePath
       then planRecreate vars
              ("LoadBalancingScheme change: '" +:+ fmt_v (api.A delta)
               +:+ "' -> '" +:+ fmt_v (api.B delta) +:+ "'")
       else vars)
    items vars.

(** [func (n *backendServiceNode) Diff(gotNode rnode.Node)]; the result is
    the Go pair, [None] for [nil]. *)
Definition backendServiceNode_Diff (n : backendServiceNode) (gotNode : Node)
  : option (rnode.PlanDetails Val) * option error :=
  match gotNode with
  | BackendServiceNode got =>
      match resource_Diff (resource got) (resource n) with
      | inr err => (None, Some (wrapError "BackendServiceNode: Diff " err))
      | inl diff =>
          if negb (api.HasDiff diff)
          then (Some {| rnode.Operation_ := rnode.OpNothing;
                        rnode.Why := "No diff between got and want";
                        rnode.Diff := None |}, None)
          else
            let '(needsRecreate, details) :=
              planItems (api.Items diff) (false, []) in
            if needsRecreate
            then (Some {| rnode.Operation_ := rnode.OpRecreate;
                          rnode.Why :=
                            "BackendService needs to be recreated: "
                            +:+ Join details ", ";
                          rnode.Diff := Some diff |}, None)
            else (Some {| rnode.Operation_ := rnode.OpUpdate;
                          rnode.Why := "update in place (changed=TODO)";
                          rnode.Diff := Some diff |}, None)
      end
  | _ =>
      (None,
       Some (errorString
               ("BackendServiceNode: invalid type to Diff: "
                +:+ fmt_T gotNode)))
  end.

(** *** Actions *)

Variables (W Context : Type).

(** Modelled from the spec: the cloud handle is not among the sources.  It
    is "a handle grouping per-resource-type accessors", each with an
    [Update] "taking (ctx, key, body)"; the two accessors that the update
    action calls are kept. *)
Record Cloud : Type := {
  BackendServices_Update :
    Context -> meta.Key -> GA -> W -> option error * W;
  RegionBackendServices_Update :
    Context -> meta.Key -> GA -> W -> option error * W
}.

(** The generic lowerings of package rnode that [Actions] hands over to,
    with [&ops{}] already given, and [exec.NewExistsAction]. *)
Variable CreateActions :
  backendServiceNode -> BackendService ->
  list (exec.Action W Context Cloud) * option error.
Variable DeleteActions :
  Node -> backendServiceNode ->
  list (exec.Action W Context Cloud) * option error.
Variable RecreateActions :
  Node -> backendServiceNode -> BackendService ->
  list (exec.Action W Context Cloud) * option error.
Variable UpdateActions :
  Node -> backendServiceNode -> BackendService ->
  list (exec.Action W Context Cloud) * option error.
Variable NewExistsAction : ResourceID -> exec.Action W Context Cloud.

(** [func (n *backendServiceNode) Actions(got rnode.Node)]. *)
Definition backendServiceNode_Actions (n : backendServiceNode) (got : Node)
  : list (exec.Action W Context Cloud) * option error :=
  let op := rnode.Plan_Op (rnode.Plan (NodeBase n)) in
  match op with
  | rnode.OpCreate => CreateActions n (resource n)
  | rnode.OpDelete => DeleteActions got n
  | rnode.OpNothing => ([NewExistsAction (rnode.ID (NodeBase n))], None)
  | rnode.OpRecreate => RecreateActions got n (resource n)
  | rnode.OpUpdate => UpdateActions got n (resource n)
  | _ =>
      ([], Some (errorString
                   ("BackendServiceNode: invalid plan op "
                    +:+ Operation_String op)))
  end.

(** [backendServiceUpdateAction]; the embedded [exec.ActionBase] holds the
    events the action waits for and is not read by [Run]. *)
Record backendServiceUpdateAction : Type := {
  id : ResourceID;
  want : backendServiceNode
}.

(** [func (act *backendServiceUpdateAction) Run(ctx, cl)]. *)
Definition backendServiceUpdateAction_Run (act : backendServiceUpdateAction)
    (ctx : Context) (cl : Cloud) (w : W)
  : exec.EventList * option error * W :=
  let where_ :=
    "backendServiceUpdateAction Run(" +:+ ResourceID_String (id act) in
  match ToGA (resource (want act)) with
  | inr err => ([], Some (wrapError (where_ +:+ "): ToGA: ") err), w)
  | inl res =>
      match meta.Type_ (Key (id act)) with
      | meta.Global =>
          let '(err, w') :=
            BackendServices_Update cl ctx (Key (id act)) res w in
          match err with
          | Some e => ([], Some (wrapError (where_ +:+ "): Update: ") e), w')
          | None => ([], None, w')
          end
      | meta.Regional =>
          let '(err, w') :=
            RegionBackendServices_Update cl ctx (Key (id act)) res w in
          match err with
          | Some e => ([], Some (wrapError (where_ +:+ "): Update: ") e), w')
          | None => ([], None, w')
          end
      | _ => ([], Some (errorString (where_ +:+ "): invalid key type")), w)
      end
  end.

Definition backendServiceUpdateAction_DryRun
    (act : backendServiceUpdateAction) : exec.EventList :=
  [].

Definition backendServiceUpdateAction_String
    (act : backendServiceUpdateAction) : string :=
  "BackendServiceUpdateAction(" +:+ ResourceID_String (id act) +:+ ")".

Definition backendServiceUpdateAction_Metadata
    (act : backendServiceUpdateAction) : exec.ActionMetadata :=
  {| exec.Name :=
       "BackendServiceUpdateAction(" +:+ ResourceID_String (id act) +:+ ")";
     exec.Type_ := exec.ActionTypeUpdate;
     exec.Summary := "Update " +:+ ResourceID_String (id act) |}.

End BackendService.

Arguments NodeBase {BackendService Val}.
Arguments resource {BackendService Val}.
Arguments BackendServiceNode {BackendService Val}.
Arguments OtherNode {BackendService Val}.
Arguments NilNode {BackendService Val}.
Arguments fmt_T {BackendService Val}.
Arguments planRecreate vars text : simpl never.
Arguments onLoadBalancingScheme {Val}.
Arguments planItems {Val}.
Arguments backendServiceNode_Diff {BackendService Val}.
Arguments BackendServices_Update {GA W Context}.
Arguments RegionBackendServices_Update {GA W Context}.
Arguments backendServiceNode_Actions {BackendService GA Val} _ {W Context}.
Arguments id {BackendService Val}.
Arguments want {BackendService Val}.
Arguments backendServiceUpdateAction_Run {BackendService GA Val} _ _ {W Context}.
Arguments backendServiceUpdateAction_DryRun {BackendService Val}.
Arguments backendServiceUpdateAction_String {BackendService Val}.
Arguments backendServiceUpdateAction_Metadata {BackendService Val}.

End backendservice.

(** ** Package cloud: rate limiters *)

Module cloud.

(** [RateLimitKey] (the tests also call it [CallContextKey]); passed by
    pointer, so a key may be [nil]. *)
Record RateLimitKey : Type := {
  ProjectID : string;
  Operation : string;
  Service : string
}.

Section RateLimiters.

Variables (W Context : Type).

(** The [RateLimiter] interface: [Accept] "returns nil on admission, or the
    cancellation error", [Observe] is the hook called with the outcome of a
    call. *)
Record RateLimiter : Type := {
  Accept : Context -> option RateLimitKey -> W -> option error * W;
  Observe : Context -> option error -> option RateLimitKey -> W -> W
}.

(** Modelled from the spec: ratelimit.go is not among the sources, only its
    tests are.  The spec: CompositeRateLimiter(default) dispatches by key;
    Register(service, operation, rl) installs overrides; the lookup order
    for a key (p, s, o) is 1. the exact pair (s, o), 2. the service default
    (s, empty), 3. the operation default (empty, o), 4. the default. *)
Record CompositeRateLimiter : Type := {
  defaultRL : RateLimiter;
  rateLimiters : gmap (string * string) RateLimiter
}.

(** Modelled from the spec: a new composite limiter has its default and no
    override. *)
Definition NewCompositeRateLimiter (def : RateLimiter) : CompositeRateLimiter :=
  {| defaultRL := def; rateLimiters := ∅ |}.

(** Modelled from the spec: [Register] installs the override of the pair
    (service, operation), in place of an earlier one. *)
Definition Register (rl : CompositeRateLimiter) (service operation : string)
    (r : RateLimiter) : CompositeRateLimiter :=
  {| defaultRL := defaultRL rl;
     rateLimiters := <[(service, operation) := r]> (rateLimiters rl) |}.

(** Modelled from the spec: the four steps of the lookup order. *)
Definition lookupRateLimiter (rl : CompositeRateLimiter) (key : RateLimitKey)
  : RateLimiter :=
  match rateLimiters rl !! (Service key, Operation key) with
  | Some r => r
  | None =>
      match rateLimiters rl !! (Service key, "") with
      | Some r => r
      | None =>
          match rateLimiters rl !! ("", Operation key) with
          | Some r => r
          | None => defaultRL rl
          end
      end
  end.

(** Modelled from the spec: [Accept] is the [Accept] of the limiter that
    the lookup finds, with the same context and key. *)
Definition CompositeRateLimiter_Accept (rl : CompositeRateLimiter)
    (ctx : Context) (key : RateLimitKey) (w : W) : option error * W :=
  Accept (lookupRateLimiter rl key) ctx (Some key) w.

(** Modelled from the spec: "PerProjectRateLimiter(factory) maintains a
    mapping ProjectID -> inner RateLimiter, creating a new inner on first
    sighting of a project.  Two factory styles: Shared (always returns the
    same inner) and Individual (one per project).  An absent/empty/nil
    ProjectID is canonicalized to a single bucket."  The limiter owns its
    map, so [Accept] returns the limiter too. *)
Record PerProjectRateLimiter : Type := {
  factory : W -> RateLimiter * W;
  limiters : gmap string RateLimiter
}.

(** Modelled from the spec: a new per-project limiter has sighted no
    project. *)
Definition NewPerProjectRateLimiter (factory : W -> RateLimiter * W)
  : PerProjectRateLimiter :=
  {| factory := factory; limiters := ∅ |}.

(** Modelled from the spec: the shared factory "always returns the same
    inner". *)
Definition SharedRateLimiterFactory (rl : RateLimiter)
  : W -> RateLimiter * W :=
  fun w => (rl, w).

(** Modelled from the spec: the bucket of a key is its project, and "an
    absent/empty/nil ProjectID is canonicalized to a single bucket", the
    empty one. *)
Definition bucket (key : option RateLimitKey) : string :=
  match key with
  | Some k => ProjectID k
  | None => ""
  end.

(** Modelled from the spec: [Accept] is the [Accept] of the inner of the
    key's bucket, which the factory makes "on first sighting". *)
Definition PerProjectRateLimiter_Accept (pp : PerProjectRateLimiter)
    (ctx : Context) (key : option RateLimitKey) (w : W)
  : option error * PerProjectRateLimiter * W :=
  match limiters pp !! bucket key with
  | Some rl =>
      let '(err, w') := Accept rl ctx key w in (err, pp, w')
  | None =>
      let '(rl, w1) := factory pp w in
      let pp' := {| factory := factory pp;
                    limiters := <[bucket key := rl]> (limiters pp) |} in
      let '(err, w2) := Accept rl ctx key w1 in (err, pp', w2)
  end.

(** A sequence of calls, one after the other. *)
Fixpoint CompositeRateLimiter_AcceptAll (rl : CompositeRateLimiter)
    (ctx : Context) (keys : list RateLimitKey) (w : W)
  : list (option error) * W :=
  match keys with
  | [] => ([], w)
  | key :: keys' =>
      let '(err, w') := CompositeRateLimiter_Accept rl ctx key w in
      let '(errs, w'') := CompositeRateLimiter_AcceptAll rl ctx keys' w' in
      (err :: errs, w'')
  end.

Fixpoint PerProjectRateLimiter_AcceptAll (pp : PerProjectRateLimiter)
    (ctx : Context) (keys : list (option RateLimitKey)) (w : W)
  : PerProjectRateLimiter * W :=
  match keys with
  | [] => (pp, w)
  | key :: keys' =>
      let '(_, pp', w') := PerProjectRateLimiter_Accept pp ctx key w in
      PerProjectRateLimiter_AcceptAll pp' ctx keys' w'
  end.

End RateLimiters.

Arguments Accept {W Context}.
Arguments Observe {W Context}.
Arguments defaultRL {W Context}.
Arguments rateLimiters {W Context}.
Arguments NewCompositeRateLimiter {W Context}.
Arguments Register {W Context}.
Arguments lookupRateLimiter {W Context}.
Arguments CompositeRateLimiter_Accept {W Context}.
Arguments CompositeRateLimiter_AcceptAll {W Context}.
Arguments factory {W Context}.
Arguments limiters {W Context}.
Arguments NewPerProjectRateLimiter {W Context}.
Arguments SharedRateLimiterFactory {W Context}.
Arguments PerProjectRateLimiter_Accept {W Context}.
Arguments PerProjectRateLimiter_AcceptAll {W Context}.

(** *** The fakes of ratelimit_test.go *)

(** [type CountingRateLimiter int], used through pointers: the world is the
    list of the counters allocated so far, a pointer is a position in it. *)
Abbreviation Counters := (list Z).

(** The tests run under [context.Background()]. *)
Inductive TestContext : Type := Background.

(** [new(CountingRateLimiter)]. *)
Definition new_CountingRateLimiter (h : Counters) : nat * Counters :=
  (length h, (h ++ [0])%list).

(** [*crl++; return nil]. *)
Definition CountingRateLimiter_Accept (crl : nat) (ctx : TestContext)
    (key : option RateLimitKey) (h : Counters) : option error * Counters :=
  (None, alter (fun n => int_wrap (n + 1)) crl h).

Definition CountingRateLimiter (crl : nat) : RateLimiter Counters TestContext :=
  {| Accept := CountingRateLimiter_Accept crl;
     Observe := fun _ _ _ h => h |}.

(** The set-up of [TestCompositeRateLimiter_Table]: [def], [defNetRL] and
    [getNetRL] are the counters 0, 1 and 2. *)
Definition tableCounters : Counters := [0; 0; 0].

Definition tableRateLimiter : CompositeRateLimiter Counters TestContext :=
  let rl := NewCompositeRateLimiter (CountingRateLimiter 0) in
  let rl := Register rl "networks" "" (CountingRateLimiter 1) in
  Register rl "networks" "get" (CountingRateLimiter 2).

(** The three nested loops of the test. *)
Definition tableKeys : list RateLimitKey :=
  project ← ["" ; "projectB"; "project-does-not-exist"];
  service ← ["" ; "networks"; "service-does-not-exist"];
  operation ← ["" ; "get"; "operation-does-not-exist"];
  [ {| ProjectID := project; Service := service; Operation := operation |} ].

(** The factory of [TestPerProjectRateLimiter_Individual]: a new counter,
    appended to [crls]. *)
Definition individualFactory (crls : Counters)
  : RateLimiter Counters TestContext * Counters :=
  let '(crl, crls') := new_CountingRateLimiter crls in
  (CountingRateLimiter crl, crls').

(** The value of a counter that has been incremented [n] times. *)
Definition incremented (n : nat) : Z :=
  Nat.iter n (fun z => int_wrap (z + 1)) 0.

(** The number of the calls in [keys] that fall into bucket [p]. *)
Definition callsFor (p : string) (keys : list (option RateLimitKey)) : nat :=
  length (filter (fun key => bucket key = p) keys).

(** The buckets in the order in which the calls [keys] first sight them,
    after the buckets already [seen]. *)
Fixpoint sightings (seen : list string) (keys : list (option RateLimitKey))
  : list string :=
  match keys with
  | [] => seen
  | key :: keys' =>
      if decide (bucket key ∈ seen)
      then sightings seen keys'
      else sightings (seen ++ [bucket key])%list keys'
  end.

(** A per-project limiter on [individualFactory] that has served the calls
    [keys] and sighted the buckets [ps], in that order: the inner of the
    bucket at position [i] is counter [i], incremented once for each call
    of the bucket; buckets not sighted have no inner. *)
Definition served (ps : list string) (keys : list (option RateLimitKey))
    (pp : PerProjectRateLimiter Counters TestContext) (crls : Counters)
  : Prop :=
  factory pp = individualFactory
  /\ NoDup ps
  /\ length crls = length ps
  /\ (forall p, p ∈ ps <-> exists key, key ∈ keys /\ bucket key = p)
  /\ (forall p, p ∉ ps -> limiters pp !! p = None)
  /\ (forall i p, ps !! i = Some p ->
        limiters pp !! p = Some (CountingRateLimiter i)
        /\ crls !! i = Some (incremented (callsFor p keys))).

End cloud.

(** ** Fixtures

    A cut of [compute.BackendService] with the fields that the scenarios of
    the spec set, a field-by-field diff for it, and a fake cloud that
    records the calls it gets. *)

Module fixtures.

Record BackendService : Type := {
  Name : string;
  LoadBalancingScheme : string;
  Protocol : string;
  PortName : string
}.

Definition fieldDelta (name a b : string) : list (api.DiffItem string) :=
  if decide (a = b) then []
  else [ {| api.Path_ := api.Field (api.Pointer []) name;
            api.A := a; api.B := b |} ].

Definition Diff (got want : BackendService) : api.DiffResult string + error :=
  inl {| api.Items :=
           (fieldDelta "Name" (Name got) (Name want)
            ++ fieldDelta "LoadBalancingScheme"
                 (LoadBalancingScheme got) (LoadBalancingScheme want)
            ++ fieldDelta "Protocol" (Protocol got) (Protocol want)
            ++ fieldDelta "PortName" (PortName got) (PortName want))%list |}.

Definition ToGA (r : BackendService) : BackendService + error := inl r.

Definition ResourceID_String (id : ResourceID) : string :=
  "compute/backendServices:" +:+ ProjectID id +:+ "/" +:+ meta.Name (Key id).

(** A managed node that exists, with its plan slot still empty, and the
    same node once a plan has been set. *)
Definition node (id : ResourceID) (r : BackendService)
  : backendservice.backendServiceNode BackendService string :=
  {| backendservice.NodeBase :=
       {| rnode.ID := id; rnode.State := rnode.NodeExists;
          rnode.Ownership := rnode.OwnershipManaged; rnode.Plan := None |};
     backendservice.resource := r |}.

Definition planned (pd : rnode.PlanDetails string)
    (n : backendservice.backendServiceNode BackendService string)
  : backendservice.backendServiceNode BackendService string :=
  {| backendservice.NodeBase :=
       {| rnode.ID := rnode.ID (backendservice.NodeBase n);
          rnode.State := rnode.State (backendservice.NodeBase n);
          rnode.Ownership := rnode.Ownership (backendservice.NodeBase n);
          rnode.Plan := Some pd |};
     backendservice.resource := backendservice.resource n |}.

Definition bsID : ResourceID :=
  {| ProjectID := "proj"; Key := meta.GlobalKey "bs" |}.

(** Scenarios 3 and 4 of the spec. *)
Definition bsInternal : BackendService :=
  {| Name := "bs1"; LoadBalancingScheme := "INTERNAL_SELF_MANAGED";
     Protocol := "TCP"; PortName := "" |}.

Definition bsExternal : BackendService :=
  {| Name := "bs1"; LoadBalancingScheme := "EXTERNAL";
     Protocol := "TCP"; PortName := "" |}.

Definition bsExternalUDP : BackendService :=
  {| Name := "bs1"; LoadBalancingScheme := "EXTERNAL";
     Protocol := "UDP"; PortName := "" |}.

Definition bsPortName : BackendService :=
  {| Name := "bs1"; LoadBalancingScheme := "INTERNAL_SELF_MANAGED";
     Protocol := "TCP"; PortName := "example-pn" |}.

(** The fake cloud: its state is the list of the update calls made so far,
    each with the accessor, the key and the body; every call succeeds. *)
Record UpdateCall : Type := {
  accessor : string;
  key : meta.Key;
  body : BackendService
}.

Definition recordingCloud
  : backendservice.Cloud BackendService (list UpdateCall) unit :=
  {| backendservice.BackendServices_Update := fun _ k b calls =>
       (None,
        (calls ++ [ {| accessor := "BackendServices"; key := k;
                       body := b |} ])%list);
     backendservice.RegionBackendServices_Update := fun _ k b calls =>
       (None,
        (calls ++ [ {| accessor := "RegionBackendServices"; key := k;
                       body := b |} ])%list) |}.

Definition updateAction (id : ResourceID) (r : BackendService)
  : backendservice.backendServiceUpdateAction BackendService string :=
  {| backendservice.id := id; backendservice.want := node id r |}.

(** The update action as a value of the interface [exec.Action]. *)
Definition asAction
    (act : backendservice.backendServiceUpdateAction BackendService string)
  : exec.Action (list UpdateCall) unit
      (backendservice.Cloud BackendService (list UpdateCall) unit) :=
  {| exec.CanRun := fun _ => true;
     exec.Signal := fun _ calls => (false, calls);
     exec.Run :=
       backendservice.backendServiceUpdateAction_Run ToGA ResourceID_String
         act;
     exec.DryRun := fun _ => backendservice.backendServiceUpdateAction_DryRun act;
     exec.String := fun _ =>
       backendservice.backendServiceUpdateAction_String ResourceID_String act;
     exec.PendingEvents := fun _ => [];
     exec.Metadata := fun _ =>
       backendservice.backendServiceUpdateAction_Metadata ResourceID_String
         act |}.

(** Stand-ins for the lowerings of package rnode: an update is lowered to
    the update action of the node, the others to nothing. *)
Definition UpdateActions
    (got : backendservice.Node BackendService string)
    (n : backendservice.backendServiceNode BackendService string)
    (r : BackendService)
  : list (exec.Action (list UpdateCall) unit
            (backendservice.Cloud BackendService (list UpdateCall) unit))
    * option error :=
  ([asAction {| backendservice.id := rnode.ID (backendservice.NodeBase n);
                backendservice.want := n |}], None).

Definition noActions {A B : Type} (x : A) (y : B)
  : list (exec.Action (list UpdateCall) unit
            (backendservice.Cloud BackendService (list UpdateCall) unit))
    * option error :=
  ([], None).

Definition Operation_String (op : rnode.Operation) : string :=
  match op with
  | rnode.OpUnknown => "Unknown"
  | rnode.OpNothing => "Nothing"
  | rnode.OpCreate => "Create"
  | rnode.OpRecreate => "Recreate"
  | rnode.OpUpdate => "Update"
  | rnode.OpDelete => "Delete"
  end.

End fixtures.

(** ** Further definitions *)

(** The text [planRecreate] is given for a delta on [LoadBalancingScheme]:
    [fmt.Sprintf("LoadBalancingScheme change: '%v' -> '%v'", delta.A,
    delta.B)]. *)
Definition recreateText {Val : Type} (fmt_v : Val -> string)
    (delta : api.DiffItem Val) : string :=
  "LoadBalancingScheme change: '" +:+ fmt_v (api.A delta)
  +:+ "' -> '" +:+ fmt_v (api.B delta) +:+ "'".

(** The text that every error of [backendServiceUpdateAction.Run] begins
    with. *)
Definition runErrorPrefix (idText : string) : string :=
  "backendServiceUpdateAction Run(" +:+ idText +:+ "): ".

(** An action that fails at every run and counts its runs, which is what
    the comment of [fakeAction] announces for the threshold -1. *)
Definition failingAction
  : exec.Action exec.TestHeap exec.TestContext exec.NilCloud :=
  {| exec.CanRun := fun _ => true;
     exec.Signal := fun _ h => (false, h);
     exec.Run := fun _ _ h =>
       ([], Some (errorString "Action in error"),
        {| exec.fa :=
             {| exec.runCtr := int_wrap (exec.runCtr (exec.fa h) + 1);
                exec.errorRunThreshold := exec.errorRunThreshold (exec.fa h) |};
           exec.frp := exec.frp h |});
     exec.DryRun := fun _ => [];
     exec.String := fun _ => "failingAction";
     exec.PendingEvents := fun _ => [];
     exec.Metadata := fun _ =>
       {| exec.Name := "failingAction"; exec.Type_ := exec.ActionTypeUnset;
          exec.Summary := "" |} |}.

(** The heap of the retry tests at any point: the counters [r] and [c], the
    threshold [n] and the answer [b] of the provider. *)
Definition heapAt (r n c : Z) (b : bool) : exec.TestHeap :=
  {| exec.fa := {| exec.runCtr := r; exec.errorRunThreshold := n |};
     exec.frp := {| exec.ctr := c; exec.shouldRetry := b |} |}.

(** With the shared factory every bucket gets the same inner.  Here the
    shared limiter is counter 0, as in [TestPerProjectRateLimiter_Shared]:
    the limiters that a per-project limiter holds are all that counter. *)
Definition sharesCounter
    (pp : cloud.PerProjectRateLimiter cloud.Counters cloud.TestContext)
  : Prop :=
  cloud.factory pp =
    cloud.SharedRateLimiterFactory (cloud.CountingRateLimiter 0)
  /\ forall p rl, cloud.limiters pp !! p = Some rl ->
                  rl = cloud.CountingRateLimiter 0.

(** *** The helpers of the end-to-end test file *)

Module e2e.

(** A cut of [compute.HTTPHealthCheck] and [compute.HealthCheck]: the
    fields that the file sets or reads, and one more of each
    ([RequestPath], [Description]) for those it does not. *)
Record HTTPHealthCheck : Type := {
  Port : Z;
  PortName : string;
  RequestPath : string
}.

Record HealthCheck : Type := {
  Name : string;
  Type_ : string;
  CheckIntervalSec : Z;
  HttpHealthCheck : option HTTPHealthCheck;
  SelfLink : string;
  Description : string
}.

(** [func cmp(hc1, hc2 *compute.HealthCheck) bool], on non-nil pointers. *)
Definition cmp (hc1 hc2 : HealthCheck) : bool :=
  if bool_decide (Name hc1 <> Name hc2) then false
  else if bool_decide (Type_ hc1 <> Type_ hc2) then false
  else if bool_decide (CheckIntervalSec hc1 <> CheckIntervalSec hc2) then false
  else
    match HttpHealthCheck hc1, HttpHealthCheck hc2 with
    | Some h1, Some h2 =>
        if bool_decide (Port h1 <> Port h2) then false
        else if bool_decide (PortName h1 <> PortName h2) then false
        else true
    | _, _ => false
    end.

(** [func defaultHTTPHC(name string) compute.HealthCheck]. *)
Definition defaultHTTPHC (name : string) : HealthCheck :=
  {| Name := name;
     Type_ := "HTTP";
     CheckIntervalSec := 10;
     HttpHealthCheck :=
       Some {| Port := 80; PortName := "http"; RequestPath := "" |};
     SelfLink := "";
     Description := "" |}.

End e2e.

(** * Properties *)

(** ** The retry decorator *)

(** One unfolding of the loop. *)
Lemma retriableAction_Run_S {W Context_ Cloud : Type}
    (ctx_Err : Context_ -> W -> option error)
    (ra : exec.retriableAction W Context_ Cloud) (ctx : Context_) (c : Cloud)
    (fuel : nat) (w : W) :
  exec.retriableAction_Run ctx_Err (S fuel) ra ctx c w =
  let '(events, err, w1) := exec.Run (exec.a ra) ctx c w in
  match err with
  | None => exec.Returned events None w1
  | Some e =>
      let '(run, w2) := exec.IsRetriable (exec.retryProvider ra) e w1 in
      if run && bool_decide (ctx_Err ctx w2 = None)
      then exec.retriableAction_Run ctx_Err fuel ra ctx c w2
      else exec.Returned events (Some e) w2
  end.
Proof. reflexivity. Qed.

Section RetryFacts.

Context {W Context_ Cloud : Type}.
Variable ctx_Err : Context_ -> W -> option error.
Variable ra : exec.retriableAction W Context_ Cloud.
Variable ctx : Context_.
Variable c : Cloud.

Local Abbreviation Run := (exec.retriableAction_Run ctx_Err).
Local Abbreviation iteration := (exec.iteration ctx_Err).
Local Abbreviation RunC :=
  (exec.retriableAction_Run (exec.counting_ctx_Err ctx_Err)).
Local Abbreviation iterationC :=
  (exec.iteration (exec.counting_ctx_Err ctx_Err)).

(** A run that gets to iteration [k] goes on from there. *)
Lemma retriableAction_Run_iteration (k fuel : nat) (w wk : W) :
  iteration k ra ctx c w = Some wk ->
  Run (k + fuel) ra ctx c w = Run fuel ra ctx c wk.
Proof.
  revert w. induction k as [|k IH]; intros w Hk; simpl in Hk.
  - by injection Hk as ->.
  - change (S k + fuel)%nat with (S (k + fuel)).
    rewrite retriableAction_Run_S.
    destruct (exec.Run (exec.a ra) ctx c w) as [[events err] w1].
    destruct err as [e|]; [|discriminate].
    destruct (exec.IsRetriable (exec.retryProvider ra) e w1) as [run w2].
    destruct (run && bool_decide (ctx_Err ctx w2 = None)); [|discriminate].
    by apply IH.
Qed.

(** Once [Run] has returned, more fuel changes nothing. *)
Lemma retriableAction_Run_more_fuel (fuel extra : nat) (w w' : W)
    (events : exec.EventList) (err : option error) :
  Run fuel ra ctx c w = exec.Returned events err w' ->
  Run (fuel + extra) ra ctx c w = exec.Returned events err w'.
Proof.
  revert w. induction fuel as [|fuel IH]; intros w H; [discriminate|].
  change (S fuel + extra)%nat with (S (fuel + extra)).
  rewrite retriableAction_Run_S in *.
  destruct (exec.Run (exec.a ra) ctx c w) as [[events0 err0] w1].
  destruct err0 as [e|]; [|done].
  destruct (exec.IsRetriable (exec.retryProvider ra) e w1) as [run w2].
  destruct (run && bool_decide (ctx_Err ctx w2 = None)); [|done].
  by apply IH.
Qed.

(** Counting the calls does not change what the loop does. *)
Lemma counting_uncounted (fuel : nat) (w : W) (cs : exec.Calls) :
  exec.uncounted (RunC fuel (exec.counting ra) ctx c (w, cs)) =
  Run fuel ra ctx c w.
Proof.
  revert w cs. induction fuel as [|fuel IH]; intros w cs; [done|].
  rewrite !retriableAction_Run_S. simpl.
  destruct (exec.Run (exec.a ra) ctx c w) as [[events err] w1].
  destruct err as [e|]; [|done]. simpl.
  destruct (exec.IsRetriable (exec.retryProvider ra) e w1) as [run w2].
  unfold exec.counting_ctx_Err at 1. simpl.
  destruct (run && bool_decide (ctx_Err ctx w2 = None)); [|done].
  apply IH.
Qed.

(** So what the counting run returns, the plain run returns. *)
Lemma counting_Returned (fuel : nat) (w : W) (cs : exec.Calls)
    (events : exec.EventList) (err : option error) (wc : W * exec.Calls) :
  RunC fuel (exec.counting ra) ctx c (w, cs) = exec.Returned events err wc ->
  Run fuel ra ctx c w = exec.Returned events err wc.1.
Proof. intros H. by rewrite <- (counting_uncounted fuel w cs), H. Qed.

(** The counters at iteration [k]: [k] runs and [k] checks more. *)
Lemma counting_iteration (k : nat) (w wk : W) (cs : exec.Calls) :
  iteration k ra ctx c w = Some wk ->
  iterationC k (exec.counting ra) ctx c (w, cs) =
  Some (wk, {| exec.runs := k + exec.runs cs;
               exec.checks := k + exec.checks cs |}).
Proof.
  revert w cs. induction k as [|k IH]; intros w cs Hk; simpl in Hk.
  - injection Hk as ->. by destruct cs.
  - simpl.
    destruct (exec.Run (exec.a ra) ctx c w) as [[events err] w1].
    destruct err as [e|]; [|discriminate]. simpl.
    destruct (exec.IsRetriable (exec.retryProvider ra) e w1) as [run w2].
    unfold exec.counting_ctx_Err at 1. simpl.
    destruct (run && bool_decide (ctx_Err ctx w2 = None)); [|discriminate].
    rewrite (IH _ _ Hk). simpl. repeat f_equal; lia.
Qed.

(** The loop never takes a run back. *)
Lemma counting_runs_grow (fuel : nat) (w : W) (cs : exec.Calls) :
  (exec.runs cs <=
   exec.runs (exec.world (RunC fuel (exec.counting ra) ctx c (w, cs))).2)%nat.
Proof.
  revert w cs. induction fuel as [|fuel IH]; intros w cs; [done|].
  rewrite retriableAction_Run_S. simpl.
  destruct (exec.Run (exec.a ra) ctx c w) as [[events err] w1].
  destruct err as [e|]; [|simpl; lia]. simpl.
  destruct (exec.IsRetriable (exec.retryProvider ra) e w1) as [run w2].
  destruct (run && _); [|simpl; lia].
  etrans; [|apply IH]. simpl. lia.
Qed.

End RetryFacts.

(** One unfolding of [iteration]. *)
Lemma iteration_S {W Context_ Cloud : Type}
    (ctx_Err : Context_ -> W -> option error)
    (ra : exec.retriableAction W Context_ Cloud) (ctx : Context_) (c : Cloud)
    (k : nat) (w : W) :
  exec.iteration ctx_Err (S k) ra ctx c w =
  let '(_, err, w1) := exec.Run (exec.a ra) ctx c w in
  match err with
  | None => None
  | Some e =>
      let '(run, w2) := exec.IsRetriable (exec.retryProvider ra) e w1 in
      if run && bool_decide (ctx_Err ctx w2 = None)
      then exec.iteration ctx_Err k ra ctx c w2
      else None
  end.
Proof. reflexivity. Qed.

(** What the loop reads of the context.  Two ways of reading [ctx.Err()]
    that agree, as to nil or not, in the worlds that the loop is in right
    after a failed run which [IsRetriable] has accepted, give the same
    run: the loop reads the context there and nowhere else. *)
Lemma retriableAction_Run_ctx_ext {W Context_ Cloud : Type}
    (ctx_Err ctx_Err' : Context_ -> W -> option error)
    (ra : exec.retriableAction W Context_ Cloud) (ctx : Context_) (c : Cloud)
    (fuel : nat) (w : W) :
  (forall (k : nat) (wk w1 w2 : W) (events : exec.EventList) (e : error),
     exec.iteration ctx_Err k ra ctx c w = Some wk ->
     exec.Run (exec.a ra) ctx c wk = (events, Some e, w1) ->
     exec.IsRetriable (exec.retryProvider ra) e w1 = (true, w2) ->
     (ctx_Err ctx w2 = None <-> ctx_Err' ctx w2 = None)) ->
  exec.retriableAction_Run ctx_Err' fuel ra ctx c w =
  exec.retriableAction_Run ctx_Err fuel ra ctx c w.
Proof.
  revert w. induction fuel as [|fuel IH]; intros w H; [done|].
  rewrite !retriableAction_Run_S.
  destruct (exec.Run (exec.a ra) ctx c w) as [[events err] w1] eqn:Hrun.
  destruct err as [e|]; [|done].
  destruct (exec.IsRetriable (exec.retryProvider ra) e w1) as [run w2]
    eqn:Hretry.
  destruct run; [|done]. simpl.
  pose proof (H 0%nat w w1 w2 events e eq_refl Hrun Hretry) as Hagree.
  destruct (decide (ctx_Err ctx w2 = None)) as [Hlive|Hdone].
  - rewrite (bool_decide_eq_true_2 _ Hlive).
    rewrite (bool_decide_eq_true_2 _ (proj1 Hagree Hlive)).
    apply IH. intros k wk w1' w2' events' e' Hk. apply (H (S k)).
    rewrite iteration_S, Hrun, Hretry. simpl.
    by rewrite (bool_decide_eq_true_2 _ Hlive).
  - rewrite (bool_decide_eq_false_2 _ Hdone).
    rewrite bool_decide_eq_false_2; [done|].
    intros Hlive. by apply Hdone, Hagree.
Qed.

(** One iteration is one run more, at least. *)
Lemma counting_runs_S {W Context_ Cloud : Type}
    (ctx_Err : Context_ -> W -> option error)
    (ra : exec.retriableAction W Context_ Cloud) (ctx : Context_) (c : Cloud)
    (fuel : nat) (w : W) (cs : exec.Calls) :
  (S (exec.runs cs) <=
   exec.runs
     (exec.world
        (exec.retriableAction_Run (exec.counting_ctx_Err ctx_Err) (S fuel)
           (exec.counting ra) ctx c (w, cs))).2)%nat.
Proof.
  rewrite retriableAction_Run_S. simpl.
  destruct (exec.Run (exec.a ra) ctx c w) as [[events err] w1].
  destruct err as [e|]; [|simpl; lia]. simpl.
  destruct (exec.IsRetriable (exec.retryProvider ra) e w1) as [run w2].
  destruct (run && _); [|simpl; lia].
  etrans; [|apply counting_runs_grow]. simpl. lia.
Qed.

(** C4.  A retriable action whose wrapped action fails on its first 4 runs
    and succeeds on the 5th, with a provider that answers true each time
    and a live context (the loop gets to its iteration number 4): [Run]
    returns the events of the 5th run and a nil error, after exactly 5
    calls of the wrapped action and 4 of [IsRetriable].  When the provider
    answers false to the first failure: [Run] returns that error, after
    exactly one call of each. *)
Theorem retriableAction_Run_fails_four_times
    {W Context_ Cloud : Type} (ctx_Err : Context_ -> W -> option error)
    (ra : exec.retriableAction W Context_ Cloud) (ctx : Context_) (c : Cloud)
    (w0 : W) :
  (forall (w4 w5 : W) (events : exec.EventList),
     exec.iteration ctx_Err 4 ra ctx c w0 = Some w4 ->
     exec.Run (exec.a ra) ctx c w4 = (events, None, w5) ->
     forall fuel : nat, (5 <= fuel)%nat ->
     exec.retriableAction_Run (exec.counting_ctx_Err ctx_Err) fuel
       (exec.counting ra) ctx c (w0, exec.noCalls) =
     exec.Returned events None
       (w5, {| exec.runs := 5; exec.checks := 4 |}))
  /\
  (forall (w1 w2 : W) (events : exec.EventList) (e : error),
     exec.Run (exec.a ra) ctx c w0 = (events, Some e, w1) ->
     exec.IsRetriable (exec.retryProvider ra) e w1 = (false, w2) ->
     forall fuel : nat, (1 <= fuel)%nat ->
     exec.retriableAction_Run (exec.counting_ctx_Err ctx_Err) fuel
       (exec.counting ra) ctx c (w0, exec.noCalls) =
     exec.Returned events (Some e)
       (w2, {| exec.runs := 1; exec.checks := 1 |})).
Proof.
  split.
  - intros w4 w5 events H4 H5 fuel Hfuel.
    replace fuel with (4 + S (fuel - 5))%nat by lia.
    rewrite (retriableAction_Run_iteration _ _ _ _ 4 _ _ _
               (counting_iteration ctx_Err ra ctx c 4 w0 w4 exec.noCalls H4)).
    rewrite retriableAction_Run_S. simpl. by rewrite H5.
  - intros w1 w2 events e H1 H2 fuel Hfuel.
    destruct fuel as [|fuel]; [lia|].
    rewrite retriableAction_Run_S. simpl. rewrite H1. simpl. by rewrite H2.
Qed.

(** C5.  When a run of the wrapped action, at any iteration [k] of the
    loop, returns an error while the context is cancelled (and a cancelled
    context stays cancelled), that run is the last one: [Run] returns after
    [k + 1] calls of the wrapped action, with the events and the very error
    of that run. *)
Theorem retriableAction_Run_stops_when_cancelled
    {W Context_ Cloud : Type} (ctx_Err : Context_ -> W -> option error)
    (ra : exec.retriableAction W Context_ Cloud) (ctx : Context_) (c : Cloud)
    (k : nat) (w0 wk w1 : W) (events : exec.EventList) (e : error) :
  (forall (e' : error) (w : W),
     ctx_Err ctx w <> None ->
     ctx_Err ctx (exec.IsRetriable (exec.retryProvider ra) e' w).2 <> None) ->
  exec.iteration ctx_Err k ra ctx c w0 = Some wk ->
  exec.Run (exec.a ra) ctx c wk = (events, Some e, w1) ->
  ctx_Err ctx w1 <> None ->
  forall fuel : nat, (k < fuel)%nat ->
  exec.retriableAction_Run (exec.counting_ctx_Err ctx_Err) fuel
    (exec.counting ra) ctx c (w0, exec.noCalls) =
  exec.Returned events (Some e)
    ((exec.IsRetriable (exec.retryProvider ra) e w1).2,
     {| exec.runs := S k; exec.checks := S k |}).
Proof.
  intros Hstays Hk Hrun Hdone fuel Hfuel.
  replace fuel with (k + S (fuel - S k))%nat by lia.
  rewrite (retriableAction_Run_iteration _ _ _ _ k _ _ _
             (counting_iteration ctx_Err ra ctx c k w0 wk exec.noCalls Hk)).
  rewrite retriableAction_Run_S. simpl. rewrite Hrun. simpl.
  specialize (Hstays e w1 Hdone).
  destruct (exec.IsRetriable (exec.retryProvider ra) e w1) as [run w2].
  unfold exec.counting_ctx_Err at 1. simpl in *.
  rewrite (bool_decide_eq_false_2 _ Hstays), andb_false_r.
  repeat f_equal; lia.
Qed.

(** C8, as the code has it.  The decorator hands [Metadata],
    [PendingEvents], [DryRun], [CanRun] and [Signal] over to the wrapped
    action; its [String] is the wrapped action's followed by
    [" with retry"]. *)
Theorem retriableAction_identity
    {W Context_ Cloud : Type} (ra : exec.retriableAction W Context_ Cloud)
    (w : W) :
  exec.retriableAction_String ra w =
    exec.String (exec.a ra) w +:+ " with retry"
  /\ exec.retriableAction_Metadata ra w = exec.Metadata (exec.a ra) w
  /\ exec.retriableAction_PendingEvents ra w =
       exec.PendingEvents (exec.a ra) w
  /\ exec.retriableAction_DryRun ra w = exec.DryRun (exec.a ra) w
  /\ exec.retriableAction_CanRun ra w = exec.CanRun (exec.a ra) w
  /\ (forall ev : exec.Event,
        exec.retriableAction_Signal ra ev w = exec.Signal (exec.a ra) ev w).
Proof. repeat split. Qed.

(** C9.  Whatever the context, cancelled or not: as soon as the loop has
    been given one iteration, the wrapped action has been called at least
    once; and when its first run succeeds, [Run] returns what it returned,
    after one call and without any retry check.  The loop reads the context
    after a failed run that [IsRetriable] has accepted, in the world left by
    that check: if the context is cancelled there, [Run] returns the error
    of the run, and if it is live the action is run again.  And it reads
    the context nowhere else: another way of reading [ctx.Err()], which
    agrees with [ctx_Err] in those worlds and may differ anywhere else,
    before the first run in particular, gives the same run. *)
Theorem retriableAction_Run_runs_at_least_once
    {W Context_ Cloud : Type} (ctx_Err : Context_ -> W -> option error)
    (ra : exec.retriableAction W Context_ Cloud) (ctx : Context_) (c : Cloud)
    (fuel : nat) (w : W) :
  (1 <= exec.runs
          (exec.world
             (exec.retriableAction_Run (exec.counting_ctx_Err ctx_Err)
                (S fuel) (exec.counting ra) ctx c (w, exec.noCalls))).2)%nat
  /\
  (forall (events : exec.EventList) (w1 : W),
     exec.Run (exec.a ra) ctx c w = (events, None, w1) ->
     exec.retriableAction_Run (exec.counting_ctx_Err ctx_Err)
       (S fuel) (exec.counting ra) ctx c (w, exec.noCalls) =
     exec.Returned events None
       (w1, {| exec.runs := 1; exec.checks := 0 |}))
  /\
  (forall (events : exec.EventList) (e : error) (w1 w2 : W),
     exec.Run (exec.a ra) ctx c w = (events, Some e, w1) ->
     exec.IsRetriable (exec.retryProvider ra) e w1 = (true, w2) ->
     (ctx_Err ctx w2 <> None ->
      exec.retriableAction_Run (exec.counting_ctx_Err ctx_Err)
        (S fuel) (exec.counting ra) ctx c (w, exec.noCalls) =
      exec.Returned events (Some e)
        (w2, {| exec.runs := 1; exec.checks := 1 |}))
     /\
     (ctx_Err ctx w2 = None ->
      exec.retriableAction_Run (exec.counting_ctx_Err ctx_Err)
        (S fuel) (exec.counting ra) ctx c (w, exec.noCalls) =
      exec.retriableAction_Run (exec.counting_ctx_Err ctx_Err)
        fuel (exec.counting ra) ctx c
        (w2, {| exec.runs := 1; exec.checks := 1 |})
      /\ (2 <= exec.runs
                 (exec.world
                    (exec.retriableAction_Run
                       (exec.counting_ctx_Err ctx_Err) (S (S fuel))
                       (exec.counting ra) ctx c (w, exec.noCalls))).2)%nat))
  /\
  (forall ctx_Err' : Context_ -> W -> option error,
     (forall (k : nat) (wk w1 w2 : W) (events : exec.EventList) (e : error),
        exec.iteration ctx_Err k ra ctx c w = Some wk ->
        exec.Run (exec.a ra) ctx c wk = (events, Some e, w1) ->
        exec.IsRetriable (exec.retryProvider ra) e w1 = (true, w2) ->
        (ctx_Err ctx w2 = None <-> ctx_Err' ctx w2 = None)) ->
     exec.retriableAction_Run ctx_Err' fuel ra ctx c w =
     exec.retriableAction_Run ctx_Err fuel ra ctx c w).
Proof.
  split_and!.
  - apply (counting_runs_S ctx_Err ra ctx c fuel w exec.noCalls).
  - intros events w1 H. rewrite retriableAction_Run_S. simpl. by rewrite H.
  - intros events e w1 w2 Hrun Hretry.
    assert (forall fuel' : nat,
              exec.retriableAction_Run (exec.counting_ctx_Err ctx_Err)
                (S fuel') (exec.counting ra) ctx c (w, exec.noCalls) =
              if bool_decide (ctx_Err ctx w2 = None)
              then exec.retriableAction_Run (exec.counting_ctx_Err ctx_Err)
                     fuel' (exec.counting ra) ctx c
                     (w2, {| exec.runs := 1; exec.checks := 1 |})
              else exec.Returned events (Some e)
                     (w2, {| exec.runs := 1; exec.checks := 1 |})) as Hstep.
    { intros fuel'. rewrite retriableAction_Run_S. simpl. rewrite Hrun.
      simpl. by rewrite Hretry. }
    split.
    + intros Hdone. by rewrite Hstep, (bool_decide_eq_false_2 _ Hdone).
    + intros Hlive. rewrite !Hstep, (bool_decide_eq_true_2 _ Hlive).
      split; [done|].
      apply (counting_runs_S ctx_Err ra ctx c fuel w2
               {| exec.runs := 1; exec.checks := 1 |}).
  - intros ctx_Err' Hagree. by apply retriableAction_Run_ctx_ext.
Qed.

(** [TestRetriableAction]: the fake action with threshold 5 under
    [context.Background()], with a provider that answers true and with one
    that answers false. *)
Lemma retriableAction_Run_fails_four_times_witness :
  exec.retriableAction_Run (exec.counting_ctx_Err exec.TestContext_Err) 5
    (exec.counting exec.testRetriableAction) exec.Background tt
    (exec.testHeap 5 true, exec.noCalls) =
  exec.Returned [] None
    ({| exec.fa := {| exec.runCtr := 5; exec.errorRunThreshold := 5 |};
        exec.frp := {| exec.ctr := 4; exec.shouldRetry := true |} |},
     {| exec.runs := 5; exec.checks := 4 |})
  /\
  exec.retriableAction_Run (exec.counting_ctx_Err exec.TestContext_Err) 1
    (exec.counting exec.testRetriableAction) exec.Background tt
    (exec.testHeap 5 false, exec.noCalls) =
  exec.Returned [] (Some (errorString "Action in error"))
    ({| exec.fa := {| exec.runCtr := 1; exec.errorRunThreshold := 5 |};
        exec.frp := {| exec.ctr := 1; exec.shouldRetry := false |} |},
     {| exec.runs := 1; exec.checks := 1 |}).
Proof.
  split.
  - apply (proj1 (retriableAction_Run_fails_four_times
                    exec.TestContext_Err exec.testRetriableAction
                    exec.Background tt (exec.testHeap 5 true))
             {| exec.fa := {| exec.runCtr := 4; exec.errorRunThreshold := 5 |};
                exec.frp := {| exec.ctr := 4; exec.shouldRetry := true |} |}).
    + reflexivity.
    + reflexivity.
    + lia.
  - apply (proj2 (retriableAction_Run_fails_four_times
                    exec.TestContext_Err exec.testRetriableAction
                    exec.Background tt (exec.testHeap 5 false))
             {| exec.fa := {| exec.runCtr := 1; exec.errorRunThreshold := 5 |};
                exec.frp := {| exec.ctr := 0; exec.shouldRetry := false |} |}).
    + reflexivity.
    + reflexivity.
    + lia.
Defined.

(** The fake action with threshold 5 and a provider that answers true,
    under a context whose deadline passes during the third run: three runs,
    and the error is the action's, not [context.DeadlineExceeded]. *)
Lemma retriableAction_Run_stops_when_cancelled_witness :
  exec.retriableAction_Run (exec.counting_ctx_Err exec.TestContext_Err) 7
    (exec.counting exec.testRetriableAction) (exec.WithDeadline 3) tt
    (exec.testHeap 5 true, exec.noCalls) =
  exec.Returned [] (Some (errorString "Action in error"))
    ({| exec.fa := {| exec.runCtr := 3; exec.errorRunThreshold := 5 |};
        exec.frp := {| exec.ctr := 3; exec.shouldRetry := true |} |},
     {| exec.runs := 3; exec.checks := 3 |}).
Proof.
  apply (retriableAction_Run_stops_when_cancelled
           exec.TestContext_Err exec.testRetriableAction
           (exec.WithDeadline 3) tt 2 (exec.testHeap 5 true)
           {| exec.fa := {| exec.runCtr := 2; exec.errorRunThreshold := 5 |};
              exec.frp := {| exec.ctr := 2; exec.shouldRetry := true |} |}
           {| exec.fa := {| exec.runCtr := 3; exec.errorRunThreshold := 5 |};
              exec.frp := {| exec.ctr := 2; exec.shouldRetry := true |} |}).
  - intros e' w H. exact H.
  - reflexivity.
  - reflexivity.
  - discriminate.
  - lia.
Defined.

(** [TestRetriableActionWithContextCancel] with the context already
    cancelled: the fake action with threshold -1 succeeds at once, and it
    has been run.  With threshold 5 and a context whose deadline passes
    during the first run, live before it: the action fails once, the
    context is read then, and the error is the action's.  And reading that
    context gives the same run as reading one cancelled from the start. *)
Lemma retriableAction_Run_runs_at_least_once_witness :
  exec.retriableAction_Run (exec.counting_ctx_Err exec.TestContext_Err) 1
    (exec.counting exec.testRetriableAction) exec.Cancelled tt
    (exec.testHeap (-1) true, exec.noCalls) =
  exec.Returned [] None
    ({| exec.fa := {| exec.runCtr := 1; exec.errorRunThreshold := -1 |};
        exec.frp := {| exec.ctr := 0; exec.shouldRetry := true |} |},
     {| exec.runs := 1; exec.checks := 0 |})
  /\
  exec.retriableAction_Run (exec.counting_ctx_Err exec.TestContext_Err) 1
    (exec.counting exec.testRetriableAction) (exec.WithDeadline 1) tt
    (exec.testHeap 5 true, exec.noCalls) =
  exec.Returned [] (Some (errorString "Action in error"))
    ({| exec.fa := {| exec.runCtr := 1; exec.errorRunThreshold := 5 |};
        exec.frp := {| exec.ctr := 1; exec.shouldRetry := true |} |},
     {| exec.runs := 1; exec.checks := 1 |})
  /\
  exec.retriableAction_Run
    (fun _ => exec.TestContext_Err (exec.WithDeadline 1)) 7
    exec.testRetriableAction exec.Cancelled tt (exec.testHeap 5 true) =
  exec.retriableAction_Run exec.TestContext_Err 7
    exec.testRetriableAction exec.Cancelled tt (exec.testHeap 5 true).
Proof.
  split_and!.
  - apply (proj1 (proj2 (retriableAction_Run_runs_at_least_once
                           exec.TestContext_Err exec.testRetriableAction
                           exec.Cancelled tt 0 (exec.testHeap (-1) true)))).
    reflexivity.
  - apply (proj1 (proj1 (proj2 (proj2
             (retriableAction_Run_runs_at_least_once
                exec.TestContext_Err exec.testRetriableAction
                (exec.WithDeadline 1) tt 0 (exec.testHeap 5 true))))
             [] (errorString "Action in error")
             {| exec.fa := {| exec.runCtr := 1; exec.errorRunThreshold := 5 |};
                exec.frp := {| exec.ctr := 0; exec.shouldRetry := true |} |}
             {| exec.fa := {| exec.runCtr := 1; exec.errorRunThreshold := 5 |};
                exec.frp := {| exec.ctr := 1; exec.shouldRetry := true |} |}
             eq_refl eq_refl)).
    intros H. vm_compute in H. discriminate H.
  - apply (proj2 (proj2 (proj2
             (retriableAction_Run_runs_at_least_once
                exec.TestContext_Err exec.testRetriableAction
                exec.Cancelled tt 7 (exec.testHeap 5 true))))).
    intros k wk w1 w2 events e Hk Hrun Hretry.
    destruct k as [|k]; [|discriminate Hk].
    injection Hk as <-. injection Hrun as <- <- <-.
    injection Hretry as <-. split; intros H; discriminate H.
Defined.

(** C8 as the spec states it fails on [String]: the decorated fake action
    prints as ["fakeAction with retry"], the fake action as
    ["fakeAction"]. *)
Lemma retriableAction_String_not_preserved :
  ~ (exec.retriableAction_String exec.testRetriableAction
       (exec.testHeap 5 true) =
     exec.String exec.fakeAction_Action (exec.testHeap 5 true)
     /\ exec.retriableAction_Metadata exec.testRetriableAction
          (exec.testHeap 5 true) =
        exec.Metadata exec.fakeAction_Action (exec.testHeap 5 true)
     /\ exec.retriableAction_PendingEvents exec.testRetriableAction
          (exec.testHeap 5 true) =
        exec.PendingEvents exec.fakeAction_Action (exec.testHeap 5 true)
     /\ exec.retriableAction_DryRun exec.testRetriableAction
          (exec.testHeap 5 true) =
        exec.DryRun exec.fakeAction_Action (exec.testHeap 5 true)).
Proof. intros [H _]. vm_compute in H. discriminate H. Qed.

(** ** BackendService nodes *)

Section DiffFacts.

Context {BackendService Val : Type}.
Variable fmt_v : Val -> string.
Variable resource_Diff :
  BackendService -> BackendService -> api.DiffResult Val + error.

Local Abbreviation Diff :=
  (backendservice.backendServiceNode_Diff fmt_v resource_Diff).

(** The loop sets [needsRecreate] when it meets such a delta, and never
    clears it. *)
Lemma planItems_needsRecreate (items : list (api.DiffItem Val))
    (needsRecreate : bool) (details : list string) :
  (backendservice.planItems fmt_v items (needsRecreate, details)).1 = true <->
  needsRecreate = true \/
  exists delta, delta ∈ items /\ backendservice.onLoadBalancingScheme delta.
Proof.
  revert needsRecreate details.
  induction items as [|delta items IH]; intros needsRecreate details.
  - simpl. split; [by left|]. intros [H|[delta [H _]]]; [done|].
    by apply elem_of_nil in H.
  - unfold backendservice.planItems in *. simpl.
    unfold api.Equal. case_bool_decide as Hpath.
    + unfold backendservice.planRecreate. rewrite IH. split; [|by left].
      intros _. right. exists delta. split; [left|done].
    + rewrite IH. split.
      * intros [H|[d [Hd Hon]]]; [by left|].
        right. exists d. split; [by right|done].
      * intros [H|[d [Hd Hon]]]; [by left|].
        apply elem_of_cons in Hd as [->|Hd]; [done|].
        right. by exists d.
Qed.

(** C1.  Between two BackendService nodes whose resources differ, [Diff]
    plans Recreate exactly when some delta is on the field
    [LoadBalancingScheme], whatever the other deltas, and Update
    otherwise; the plan carries the diff. *)
Theorem backendServiceNode_Diff_recreate_or_update
    (n got : backendservice.backendServiceNode BackendService Val)
    (diff : api.DiffResult Val) :
  resource_Diff (backendservice.resource got) (backendservice.resource n) =
    inl diff ->
  api.HasDiff diff = true ->
  exists pd : rnode.PlanDetails Val,
    Diff n (backendservice.BackendServiceNode got) = (Some pd, None)
    /\ rnode.Diff pd = Some diff
    /\ (rnode.Operation_ pd = rnode.OpRecreate <->
        exists delta, delta ∈ api.Items diff /\ backendservice.onLoadBalancingScheme delta)
    /\ (rnode.Operation_ pd = rnode.OpUpdate <->
        ~ exists delta, delta ∈ api.Items diff /\ backendservice.onLoadBalancingScheme delta).
Proof.
  intros Hdiff Hhas. unfold backendservice.backendServiceNode_Diff.
  rewrite Hdiff, Hhas. simpl.
  pose proof (planItems_needsRecreate (api.Items diff) false []) as Hloop.
  destruct (backendservice.planItems fmt_v (api.Items diff) (false, []))
    as [needsRecreate details].
  simpl in Hloop. destruct needsRecreate; eexists; (split; [reflexivity|]);
    simpl; (split; [reflexivity|]).
  - destruct (proj1 Hloop eq_refl) as [Hfalse|Hex]; [discriminate Hfalse|].
    split; [done|]. split; [done|]. intros Hno. by destruct Hno.
  - assert (~ exists delta,
                delta ∈ api.Items diff /\ backendservice.onLoadBalancingScheme delta)
      as Hno.
    { intros Hex. assert (false = true) as Hfalse by (apply Hloop; by right).
      discriminate Hfalse. }
    split; [|done]. split; [done|]. intros Hex. by destruct Hno.
Qed.

(** C2.  Between two BackendService nodes whose resources do not differ,
    [Diff] plans Nothing, and the plan carries no diff. *)
Theorem backendServiceNode_Diff_nothing
    (n got : backendservice.backendServiceNode BackendService Val)
    (diff : api.DiffResult Val) :
  resource_Diff (backendservice.resource got) (backendservice.resource n) =
    inl diff ->
  api.HasDiff diff = false ->
  Diff n (backendservice.BackendServiceNode got) =
  (Some {| rnode.Operation_ := rnode.OpNothing;
           rnode.Why := "No diff between got and want";
           rnode.Diff := None |}, None).
Proof.
  intros Hdiff Hhas. unfold backendservice.backendServiceNode_Diff.
  by rewrite Hdiff, Hhas.
Qed.

(** C10.  Given a node that is not a BackendService node, [Diff] returns an
    error and a nil plan. *)
Theorem backendServiceNode_Diff_invalid_type
    (n : backendservice.backendServiceNode BackendService Val)
    (gotNode : backendservice.Node BackendService Val) :
  (forall got, gotNode <> backendservice.BackendServiceNode got) ->
  exists err : error, Diff n gotNode = (None, Some err).
Proof.
  intros Hother. destruct gotNode as [got| |]; [by destruct (Hother got)|..];
    by eexists.
Qed.

End DiffFacts.

Section UpdateActionFacts.

Context {BackendService GA Val W Context_ : Type}.
Variable ToGA : BackendService -> GA + error.
Variable ResourceID_String : ResourceID -> string.
Variable Operation_String : rnode.Operation -> string.
Variable CreateActions :
  backendservice.backendServiceNode BackendService Val -> BackendService ->
  list (exec.Action W Context_ (backendservice.Cloud GA W Context_))
  * option error.
Variable DeleteActions :
  backendservice.Node BackendService Val ->
  backendservice.backendServiceNode BackendService Val ->
  list (exec.Action W Context_ (backendservice.Cloud GA W Context_))
  * option error.
Variables RecreateActions UpdateActions :
  backendservice.Node BackendService Val ->
  backendservice.backendServiceNode BackendService Val -> BackendService ->
  list (exec.Action W Context_ (backendservice.Cloud GA W Context_))
  * option error.
Variable NewExistsAction :
  ResourceID -> exec.Action W Context_ (backendservice.Cloud GA W Context_).

Local Abbreviation Actions :=
  (backendservice.backendServiceNode_Actions Operation_String
     CreateActions DeleteActions RecreateActions UpdateActions
     NewExistsAction).
Local Abbreviation Run :=
  (backendservice.backendServiceUpdateAction_Run ToGA ResourceID_String).


End UpdateActionFacts.

(** Scenario 4 of the spec with a second delta: the load-balancing scheme
    and the protocol both change, and the plan is Recreate. *)
Lemma backendServiceNode_Diff_recreate_or_update_witness :
  exists pd : rnode.PlanDetails string,
    backendservice.backendServiceNode_Diff id fixtures.Diff
      (fixtures.node fixtures.bsID fixtures.bsExternalUDP)
      (backendservice.BackendServiceNode
         (fixtures.node fixtures.bsID fixtures.bsInternal)) = (Some pd, None)
    /\ rnode.Diff pd =
       Some {| api.Items :=
                 [ {| api.Path_ := backendservice.LoadBalancingSchemePath;
                      api.A := "INTERNAL_SELF_MANAGED"; api.B := "EXTERNAL" |};
                   {| api.Path_ := api.Field (api.Pointer []) "Protocol";
                      api.A := "TCP"; api.B := "UDP" |} ] |}
    /\ (rnode.Operation_ pd = rnode.OpRecreate <->
        exists delta,
          delta ∈ [ {| api.Path_ := backendservice.LoadBalancingSchemePath;
                       api.A := "INTERNAL_SELF_MANAGED";
                       api.B := "EXTERNAL" |};
                    {| api.Path_ := api.Field (api.Pointer []) "Protocol";
                       api.A := "TCP"; api.B := "UDP" |} ]
          /\ backendservice.onLoadBalancingScheme delta)
    /\ (rnode.Operation_ pd = rnode.OpUpdate <->
        ~ exists delta,
          delta ∈ [ {| api.Path_ := backendservice.LoadBalancingSchemePath;
                       api.A := "INTERNAL_SELF_MANAGED";
                       api.B := "EXTERNAL" |};
                    {| api.Path_ := api.Field (api.Pointer []) "Protocol";
                       api.A := "TCP"; api.B := "UDP" |} ]
          /\ backendservice.onLoadBalancingScheme delta).
Proof.
  apply (backendServiceNode_Diff_recreate_or_update id fixtures.Diff
           (fixtures.node fixtures.bsID fixtures.bsExternalUDP)
           (fixtures.node fixtures.bsID fixtures.bsInternal)).
  - reflexivity.
  - reflexivity.
Defined.

(** What [Diff] returns in that scenario, and when only the port name
    changes. *)
Example backendServiceNode_Diff_scenario_recreate :
  backendservice.backendServiceNode_Diff id fixtures.Diff
    (fixtures.node fixtures.bsID fixtures.bsExternalUDP)
    (backendservice.BackendServiceNode
       (fixtures.node fixtures.bsID fixtures.bsInternal)) =
  (Some {| rnode.Operation_ := rnode.OpRecreate;
           rnode.Why :=
             "BackendService needs to be recreated: LoadBalancingScheme change: 'INTERNAL_SELF_MANAGED' -> 'EXTERNAL'";
           rnode.Diff :=
             Some {| api.Items :=
                 [ {| api.Path_ := backendservice.LoadBalancingSchemePath;
                      api.A := "INTERNAL_SELF_MANAGED"; api.B := "EXTERNAL" |};
                   {| api.Path_ := api.Field (api.Pointer []) "Protocol";
                      api.A := "TCP"; api.B := "UDP" |} ] |} |}, None).
Proof. reflexivity. Qed.

Example backendServiceNode_Diff_scenario_update :
  backendservice.backendServiceNode_Diff id fixtures.Diff
    (fixtures.node fixtures.bsID fixtures.bsPortName)
    (backendservice.BackendServiceNode
       (fixtures.node fixtures.bsID fixtures.bsInternal)) =
  (Some {| rnode.Operation_ := rnode.OpUpdate;
           rnode.Why := "update in place (changed=TODO)";
           rnode.Diff :=
             Some {| api.Items :=
                 [ {| api.Path_ := api.Field (api.Pointer []) "PortName";
                      api.A := ""; api.B := "example-pn" |} ] |} |}, None).
Proof. reflexivity. Qed.

(** The "no diff" case of [TestDiffAndActions]. *)
Lemma backendServiceNode_Diff_nothing_witness :
  backendservice.backendServiceNode_Diff id fixtures.Diff
    (fixtures.node fixtures.bsID fixtures.bsInternal)
    (backendservice.BackendServiceNode
       (fixtures.node fixtures.bsID fixtures.bsInternal)) =
  (Some {| rnode.Operation_ := rnode.OpNothing;
           rnode.Why := "No diff between got and want";
           rnode.Diff := None |}, None).
Proof.
  apply (backendServiceNode_Diff_nothing id fixtures.Diff
           (fixtures.node fixtures.bsID fixtures.bsInternal)
           (fixtures.node fixtures.bsID fixtures.bsInternal)
           {| api.Items := [] |}).
  - reflexivity.
  - reflexivity.
Defined.

(** A health-check node handed to [Diff]. *)
Lemma backendServiceNode_Diff_invalid_type_witness :
  exists err : error,
    backendservice.backendServiceNode_Diff id fixtures.Diff
      (fixtures.node fixtures.bsID fixtures.bsInternal)
      (backendservice.OtherNode "*healthcheck.healthCheckNode") =
    (None, Some err).
Proof.
  apply (backendServiceNode_Diff_invalid_type id fixtures.Diff
           (fixtures.node fixtures.bsID fixtures.bsInternal)
           (backendservice.OtherNode "*healthcheck.healthCheckNode")).
  intros got H. discriminate H.
Defined.

Example backendServiceNode_Diff_invalid_type_message :
  backendservice.backendServiceNode_Diff id fixtures.Diff
    (fixtures.node fixtures.bsID fixtures.bsInternal)
    backendservice.NilNode =
  (None,
   Some (errorString "BackendServiceNode: invalid type to Diff: <nil>")).
Proof. reflexivity. Qed.



(** ** Rate limiters *)

(** C3.  [TestCompositeRateLimiter_Table]: the 27 keys are all admitted,
    18 by the default limiter, 6 by the one registered for
    ("networks", "") and 3 by the one registered for ("networks", "get");
    and for any composite limiter the project of a key plays no part in the
    choice. *)
Theorem CompositeRateLimiter_table :
  length cloud.tableKeys = 27%nat
  /\ cloud.CompositeRateLimiter_AcceptAll cloud.tableRateLimiter
       cloud.Background cloud.tableKeys cloud.tableCounters =
     (replicate 27 None, [18; 6; 3])
  /\ (forall (W Context_ : Type) (rl : cloud.CompositeRateLimiter W Context_)
             (project service operation : string),
        cloud.lookupRateLimiter rl
          {| cloud.ProjectID := project; cloud.Service := service;
             cloud.Operation := operation |} =
        cloud.lookupRateLimiter rl
          {| cloud.ProjectID := ""; cloud.Service := service;
             cloud.Operation := operation |}).
Proof.
  split; [reflexivity|]. split; [vm_compute; reflexivity|]. reflexivity.
Qed.

(** The lookup order of the composite limiter, step by step. *)
Lemma lookupRateLimiter_order {W Context_ : Type}
    (rl : cloud.CompositeRateLimiter W Context_) (key : cloud.RateLimitKey) :
  cloud.lookupRateLimiter rl key =
  default (cloud.defaultRL rl)
    (cloud.rateLimiters rl !! (cloud.Service key, cloud.Operation key)
     ∪ cloud.rateLimiters rl !! (cloud.Service key, "")
     ∪ cloud.rateLimiters rl !! ("", cloud.Operation key)).
Proof.
  unfold cloud.lookupRateLimiter.
  by repeat destruct (cloud.rateLimiters rl !! _).
Qed.

(** P6 of the spec: without registrations every call goes to the
    default. *)
Lemma lookupRateLimiter_unregistered {W Context_ : Type}
    (def : cloud.RateLimiter W Context_) (key : cloud.RateLimitKey) :
  cloud.lookupRateLimiter (cloud.NewCompositeRateLimiter def) key = def.
Proof.
  unfold cloud.lookupRateLimiter, cloud.NewCompositeRateLimiter. simpl.
  by rewrite !lookup_empty.
Qed.

Section PerProjectFacts.

Implicit Types (ps : list string) (keys : list (option cloud.RateLimitKey)).
Implicit Types (pp : cloud.PerProjectRateLimiter cloud.Counters cloud.TestContext).
Implicit Types (crls : cloud.Counters) (key : option cloud.RateLimitKey).

Lemma callsFor_snoc (p : string) keys key :
  cloud.callsFor p (keys ++ [key]) =
  (cloud.callsFor p keys + if decide (cloud.bucket key = p) then 1 else 0)%nat.
Proof.
  unfold cloud.callsFor. rewrite filter_app, length_app. f_equal.
  rewrite filter_cons, filter_nil. by case_decide.
Qed.

Lemma callsFor_unsighted (p : string) keys :
  (forall key, key ∈ keys -> cloud.bucket key <> p) ->
  cloud.callsFor p keys = 0%nat.
Proof.
  unfold cloud.callsFor. induction keys as [|key keys IH]; intros H; [done|].
  rewrite filter_cons. case_decide as Hp.
  - destruct (H key); [left|done].
  - apply IH. intros key' Hin. apply H. by right.
Qed.

Lemma alter_snoc {A : Type} (f : A -> A) (l : list A) (x : A) :
  alter f (length l) (l ++ [x]) = l ++ [f x].
Proof.
  pose proof (alter_app_r f l [x] 0) as H. by rewrite Nat.add_0_r in H.
Qed.

Lemma incremented_S (n : nat) :
  cloud.incremented (S n) = int_wrap (cloud.incremented n + 1).
Proof. reflexivity. Qed.

(** A fresh limiter has served nothing. *)
Lemma served_new :
  cloud.served [] []
    (cloud.NewPerProjectRateLimiter cloud.individualFactory) [].
Proof.
  unfold cloud.served. simpl. split_and!; try done.
  - constructor.
  - intros p. split; [intros H; by apply elem_of_nil in H|].
    intros [key [H _]]. by apply elem_of_nil in H.
Qed.

(** One call: the bucket of the key is sighted if it is new. *)
Lemma served_Accept ps keys pp crls (ctx : cloud.TestContext) key :
  cloud.served ps keys pp crls ->
  cloud.served
    (if decide (cloud.bucket key ∈ ps) then ps else ps ++ [cloud.bucket key])
    (keys ++ [key])
    (cloud.PerProjectRateLimiter_Accept pp ctx key crls).1.2
    (cloud.PerProjectRateLimiter_Accept pp ctx key crls).2.
Proof.
  intros (Hfac & Hnodup & Hlen & Hin & Hout & Hinner).
  unfold cloud.served, cloud.PerProjectRateLimiter_Accept.
  set (p := cloud.bucket key). case_decide as Hp.
  - (* the bucket has its inner *)
    destruct (list_elem_of_lookup_1 _ _ Hp) as [i Hi].
    destruct (Hinner i p Hi) as [Hrl Hcount]. rewrite Hrl. simpl.
    split_and!; try done.
    + by rewrite length_alter.
    + intros q. rewrite Hin. split.
      * intros [k [Hk Hq]]. exists k. split; [|done].
        apply elem_of_app. by left.
      * intros [k [Hk Hq]]. apply elem_of_app in Hk as [Hk|Hk].
        -- by exists k.
        -- apply list_elem_of_singleton in Hk as ->. rewrite <- Hq.
           by apply Hin.
    + intros j q Hj. destruct (Hinner j q Hj) as [Hrlq Hcountq].
      split; [done|]. rewrite callsFor_snoc. fold p.
      destruct (decide (i = j)) as [<-|Hij].
      * assert (q = p) as -> by congruence.
        rewrite list_lookup_alter_eq, Hcount. simpl.
        rewrite decide_True by done.
        by rewrite Nat.add_1_r, incremented_S.
      * rewrite list_lookup_alter_ne by done.
        rewrite decide_False; [by rewrite Nat.add_0_r|].
        intros ->. apply Hij. by eapply NoDup_lookup.
  - (* first sighting: the factory makes counter number [length crls] *)
    rewrite (Hout p Hp), Hfac. simpl.
    rewrite alter_snoc. cbn.
    assert (forall k, k ∈ keys -> cloud.bucket k <> p) as Hnone.
    { intros k Hk Hq. apply Hp, Hin. by exists k. }
    split_and!; try done.
    + apply NoDup_app. split_and!; [done| |apply NoDup_singleton].
      intros q Hq Hq'. apply list_elem_of_singleton in Hq' as ->. done.
    + by rewrite !length_app, Hlen.
    + intros q. rewrite elem_of_app, list_elem_of_singleton, Hin. split.
      * intros [[k [Hk Hq]]| ->].
        -- exists k. split; [|done]. apply elem_of_app. by left.
        -- exists key. split; [|done]. apply elem_of_app. right. by left.
      * intros [k [Hk Hq]]. apply elem_of_app in Hk as [Hk|Hk].
        -- left. by exists k.
        -- apply list_elem_of_singleton in Hk as ->. by right.
    + intros q Hq. apply not_elem_of_app in Hq as [Hq Hqp].
      rewrite lookup_insert_ne; [by apply Hout|].
      intros ->. apply Hqp. by left.
    + intros j q Hj. rewrite callsFor_snoc. fold p.
      apply lookup_snoc_Some in Hj as [[Hlt Hj]|[-> <-]].
      * destruct (Hinner j q Hj) as [Hrlq Hcountq].
        assert (p <> q) as Hpq.
        { intros ->. apply Hp. by eapply list_elem_of_lookup_2. }
        rewrite lookup_insert_ne by done.
        rewrite lookup_app_l by lia.
        rewrite decide_False by done. by rewrite Nat.add_0_r.
      * rewrite lookup_insert_eq, Hlen. split; [done|].
        rewrite <- Hlen, list_lookup_middle by done.
        rewrite decide_True by done.
        by rewrite (callsFor_unsighted p keys Hnone).
Qed.

(** A sequence of calls. *)
Lemma served_AcceptAll ps keys pp crls (ctx : cloud.TestContext)
    (more : list (option cloud.RateLimitKey)) :
  cloud.served ps keys pp crls ->
  cloud.served (cloud.sightings ps more) (keys ++ more)
    (cloud.PerProjectRateLimiter_AcceptAll pp ctx more crls).1
    (cloud.PerProjectRateLimiter_AcceptAll pp ctx more crls).2.
Proof.
  revert ps keys pp crls.
  induction more as [|key more IH]; intros ps keys pp crls H.
  - simpl. by rewrite app_nil_r.
  - pose proof (served_Accept ps keys pp crls ctx key H) as Hstep.
    simpl.
    destruct (cloud.PerProjectRateLimiter_Accept pp ctx key crls)
      as [[err pp'] crls'].
    simpl in Hstep. apply IH in Hstep.
    rewrite <- app_assoc in Hstep. simpl in Hstep.
    by destruct (decide (cloud.bucket key ∈ ps)).
Qed.

End PerProjectFacts.

Lemma sightings_snoc (seen : list string)
    (keys : list (option cloud.RateLimitKey))
    (key : option cloud.RateLimitKey) :
  cloud.sightings seen (keys ++ [key]) =
  if decide (cloud.bucket key ∈ cloud.sightings seen keys)
  then cloud.sightings seen keys
  else cloud.sightings seen keys ++ [cloud.bucket key].
Proof.
  revert seen. induction keys as [|k keys IH]; intros seen; simpl; [done|].
  by destruct (decide (cloud.bucket k ∈ seen)).
Qed.

(** C7.  Any sequence of calls [keys] on a fresh per-project limiter with
    the individual factory.  The buckets sighted, in order, are those of the
    keys, each once; there are as many inners as buckets; the inner of a
    bucket has been called once for each call of the bucket, and a bucket
    not sighted has none.  One more call creates an inner exactly when its
    bucket has not been sighted yet.  A nil key and a key with an empty
    project are served by the one inner of the empty bucket. *)
Theorem PerProjectRateLimiter_Individual
    (keys : list (option cloud.RateLimitKey))
    (key : option cloud.RateLimitKey) :
  let ps := cloud.sightings [] keys in
  let served keys :=
    cloud.PerProjectRateLimiter_AcceptAll
      (cloud.NewPerProjectRateLimiter cloud.individualFactory)
      cloud.Background keys [] in
  NoDup ps
  /\ (forall p, p ∈ ps <-> exists k, k ∈ keys /\ cloud.bucket k = p)
  /\ length (served keys).2 = length ps
  /\ (forall p, p ∉ ps -> cloud.limiters (served keys).1 !! p = None)
  /\ (forall i p, ps !! i = Some p ->
        cloud.limiters (served keys).1 !! p =
          Some (cloud.CountingRateLimiter i)
        /\ (served keys).2 !! i =
             Some (cloud.incremented (cloud.callsFor p keys)))
  /\ length (served (keys ++ [key])).2 =
       (if decide (cloud.bucket key ∈ ps)
        then length (served keys).2
        else S (length (served keys).2))
  /\ (forall k, k ∈ keys ->
        (k = None \/ exists rlk, k = Some rlk /\ cloud.ProjectID rlk = "") ->
        exists i, ps !! i = Some ""
                  /\ cloud.limiters (served keys).1 !! cloud.bucket k =
                       Some (cloud.CountingRateLimiter i)).
Proof.
  intros ps served.
  pose proof (served_AcceptAll [] [] _ [] cloud.Background keys served_new)
    as (_ & Hnodup & Hlen & Hin & Hout & Hinner).
  pose proof (served_AcceptAll [] [] _ [] cloud.Background (keys ++ [key])
                served_new) as (_ & _ & Hlen' & _).
  simpl in *. fold ps in Hnodup, Hlen, Hin, Hout, Hinner.
  split_and!; try done.
  - subst served. simpl. rewrite Hlen', Hlen, sightings_snoc. fold ps.
    destruct (decide (cloud.bucket key ∈ ps)); [done|].
    rewrite length_app. simpl. lia.
  - intros k Hk Hempty.
    assert (cloud.bucket k = "") as Hbucket.
    { destruct Hempty as [->|[rlk [-> Hproject]]]; [done|]. exact Hproject. }
    assert ("" ∈ ps) as Hsighted by (apply Hin; by exists k).
    destruct (list_elem_of_lookup_1 _ _ Hsighted) as [i Hi].
    exists i. split; [done|]. rewrite Hbucket. by apply Hinner.
Qed.

(** [TestPerProjectRateLimiter_Individual]: after the calls for
    "first-project", nil, "" and "second-project" there are three counters,
    at 1, 2 and 1; nil and "" went to the second. *)
Lemma PerProjectRateLimiter_Individual_witness :
  let keys :=
    [ Some {| cloud.ProjectID := "first-project"; cloud.Operation := "";
              cloud.Service := "" |};
      None;
      Some {| cloud.ProjectID := ""; cloud.Operation := "";
              cloud.Service := "" |};
      Some {| cloud.ProjectID := "second-project"; cloud.Operation := "";
              cloud.Service := "" |} ] in
  let served :=
    cloud.PerProjectRateLimiter_AcceptAll
      (cloud.NewPerProjectRateLimiter cloud.individualFactory)
      cloud.Background keys [] in
  cloud.limiters served.1 !! "" = Some (cloud.CountingRateLimiter 1)
  /\ served.2 !! 1%nat = Some 2.
Proof.
  intros keys served.
  destruct (PerProjectRateLimiter_Individual keys None)
    as (_ & _ & _ & _ & Hinner & _).
  apply (Hinner 1%nat ""). reflexivity.
Defined.

Example TestPerProjectRateLimiter_Individual :
  (cloud.PerProjectRateLimiter_AcceptAll
     (cloud.NewPerProjectRateLimiter cloud.individualFactory)
     cloud.Background
     [ Some {| cloud.ProjectID := "first-project"; cloud.Operation := "";
               cloud.Service := "" |};
       None;
       Some {| cloud.ProjectID := ""; cloud.Operation := "";
               cloud.Service := "" |};
       Some {| cloud.ProjectID := "second-project"; cloud.Operation := "";
               cloud.Service := "" |} ] []).2 = [1; 2; 1].
Proof. vm_compute. reflexivity. Qed.

(** * Further properties *)

(** ** The retry loop *)

(** However many failures came before: when the run at iteration [k]
    succeeds, [Run] returns its events and a nil error, after [k + 1] calls
    of the wrapped action and [k] of [IsRetriable]. *)
Theorem retriableAction_Run_succeeds_after_retries
    {W Context_ Cloud : Type} (ctx_Err : Context_ -> W -> option error)
    (ra : exec.retriableAction W Context_ Cloud) (ctx : Context_) (c : Cloud)
    (k : nat) (w0 wk w' : W) (events : exec.EventList) :
  exec.iteration ctx_Err k ra ctx c w0 = Some wk ->
  exec.Run (exec.a ra) ctx c wk = (events, None, w') ->
  forall fuel : nat, (k < fuel)%nat ->
  exec.retriableAction_Run (exec.counting_ctx_Err ctx_Err) fuel
    (exec.counting ra) ctx c (w0, exec.noCalls) =
  exec.Returned events None (w', {| exec.runs := S k; exec.checks := k |}).
Proof.
  intros Hk Hrun fuel Hfuel.
  replace fuel with (k + S (fuel - S k))%nat by lia.
  rewrite (retriableAction_Run_iteration _ _ _ _ k _ _ _
             (counting_iteration ctx_Err ra ctx c k w0 wk exec.noCalls Hk)).
  rewrite retriableAction_Run_S. simpl. rewrite Hrun.
  repeat f_equal; lia.
Qed.

Lemma retriableAction_Run_succeeds_after_retries_witness :
  exec.retriableAction_Run (exec.counting_ctx_Err exec.TestContext_Err) 9
    (exec.counting exec.testRetriableAction) exec.Background tt
    (exec.testHeap 3 true, exec.noCalls) =
  exec.Returned [] None
    (heapAt 3 3 2 true, {| exec.runs := 3; exec.checks := 2 |}).
Proof.
  apply (retriableAction_Run_succeeds_after_retries exec.TestContext_Err
           exec.testRetriableAction exec.Background tt 2
           (exec.testHeap 3 true) (heapAt 2 3 2 true)).
  - reflexivity.
  - reflexivity.
  - lia.
Defined.

(** When the provider answers false to the failure of the run at iteration
    [k], that run is the last one, whatever the state of the context:
    [Run] returns the events and the error of that run, after [k + 1] calls
    of the wrapped action and of [IsRetriable]. *)
Theorem retriableAction_Run_stops_when_not_retriable
    {W Context_ Cloud : Type} (ctx_Err : Context_ -> W -> option error)
    (ra : exec.retriableAction W Context_ Cloud) (ctx : Context_) (c : Cloud)
    (k : nat) (w0 wk w1 w2 : W) (events : exec.EventList) (e : error) :
  exec.iteration ctx_Err k ra ctx c w0 = Some wk ->
  exec.Run (exec.a ra) ctx c wk = (events, Some e, w1) ->
  exec.IsRetriable (exec.retryProvider ra) e w1 = (false, w2) ->
  forall fuel : nat, (k < fuel)%nat ->
  exec.retriableAction_Run (exec.counting_ctx_Err ctx_Err) fuel
    (exec.counting ra) ctx c (w0, exec.noCalls) =
  exec.Returned events (Some e)
    (w2, {| exec.runs := S k; exec.checks := S k |}).
Proof.
  intros Hk Hrun Hno fuel Hfuel.
  replace fuel with (k + S (fuel - S k))%nat by lia.
  rewrite (retriableAction_Run_iteration _ _ _ _ k _ _ _
             (counting_iteration ctx_Err ra ctx c k w0 wk exec.noCalls Hk)).
  rewrite retriableAction_Run_S. simpl. rewrite Hrun. simpl. rewrite Hno.
  simpl. repeat f_equal; lia.
Qed.

Lemma retriableAction_Run_stops_when_not_retriable_witness :
  exec.retriableAction_Run (exec.counting_ctx_Err exec.TestContext_Err) 1
    (exec.counting exec.testRetriableAction) exec.Cancelled tt
    (exec.testHeap 5 false, exec.noCalls) =
  exec.Returned [] (Some (errorString "Action in error"))
    (heapAt 1 5 1 false, {| exec.runs := 1; exec.checks := 1 |}).
Proof.
  apply (retriableAction_Run_stops_when_not_retriable exec.TestContext_Err
           exec.testRetriableAction exec.Cancelled tt 0
           (exec.testHeap 5 false) (exec.testHeap 5 false)
           (heapAt 1 5 0 false)).
  - reflexivity.
  - reflexivity.
  - reflexivity.
  - lia.
Defined.

(** From any counters on: a run that returns has called the wrapped action
    [n >= 1] times more, and [IsRetriable] [n] times more if it returns an
    error, [n - 1] times more if it returns none. *)
Lemma counting_Returned_calls {W Context_ Cloud : Type}
    (ctx_Err : Context_ -> W -> option error)
    (ra : exec.retriableAction W Context_ Cloud) (ctx : Context_) (c : Cloud)
    (fuel : nat) (w w' : W) (cs cs' : exec.Calls)
    (events : exec.EventList) (err : option error) :
  exec.retriableAction_Run (exec.counting_ctx_Err ctx_Err) fuel
    (exec.counting ra) ctx c (w, cs) = exec.Returned events err (w', cs') ->
  exists n : nat,
    (1 <= n)%nat
    /\ exec.runs cs' = (exec.runs cs + n)%nat
    /\ exec.checks cs' =
       (exec.checks cs + if err is Some _ then n else n - 1)%nat.
Proof.
  revert w cs. induction fuel as [|fuel IH]; intros w cs H; [discriminate H|].
  rewrite retriableAction_Run_S in H. simpl in H.
  destruct (exec.Run (exec.a ra) ctx c w) as [[events0 err0] w1].
  destruct err0 as [e|]; simpl in H.
  - destruct (exec.IsRetriable (exec.retryProvider ra) e w1) as [run w2].
    destruct (run && _).
    + apply IH in H as (n & Hn & Hruns & Hchecks). simpl in *.
      exists (S n). split_and!; [lia|lia|]. destruct err; lia.
    + injection H as <- <- <- <-. exists 1%nat. simpl. lia.
  - injection H as <- <- <- <-. exists 1%nat. simpl. lia.
Qed.

(** Whenever [Run] returns, the wrapped action has been called at least
    once, and [IsRetriable] once for each call if an error is returned, once
    for each call but the last if none is: each failed run is followed by
    exactly one check, and a successful one by none. *)
Theorem retriableAction_Run_checks_follow_runs
    {W Context_ Cloud : Type} (ctx_Err : Context_ -> W -> option error)
    (ra : exec.retriableAction W Context_ Cloud) (ctx : Context_) (c : Cloud)
    (fuel : nat) (w w' : W) (cs' : exec.Calls)
    (events : exec.EventList) (err : option error) :
  exec.retriableAction_Run (exec.counting_ctx_Err ctx_Err) fuel
    (exec.counting ra) ctx c (w, exec.noCalls) =
    exec.Returned events err (w', cs') ->
  (1 <= exec.runs cs')%nat
  /\ exec.checks cs' =
     (if err is Some _ then exec.runs cs' else exec.runs cs' - 1)%nat.
Proof.
  intros H. apply counting_Returned_calls in H as (n & Hn & Hruns & Hchecks).
  simpl in *. split; [lia|]. destruct err; lia.
Qed.

Lemma retriableAction_Run_checks_follow_runs_witness :
  (1 <= exec.runs {| exec.runs := 3; exec.checks := 3 |})%nat
  /\ exec.checks {| exec.runs := 3; exec.checks := 3 |} =
     exec.runs {| exec.runs := 3; exec.checks := 3 |}.
Proof.
  apply (retriableAction_Run_checks_follow_runs exec.TestContext_Err
           exec.testRetriableAction (exec.WithDeadline 3) tt 7
           (exec.testHeap 5 true) (heapAt 3 5 3 true)
           {| exec.runs := 3; exec.checks := 3 |} []
           (Some (errorString "Action in error"))).
  reflexivity.
Defined.

(** The loop has no bound of its own.  While every run fails, the provider
    answers true and the context is live (all of which an invariant [Inv]
    of the world maintains), [Run] does not return: after any number of
    iterations it has made that many calls of each and is about to run the
    wrapped action again. *)
Theorem retriableAction_Run_never_gives_up
    {W Context_ Cloud : Type} (ctx_Err : Context_ -> W -> option error)
    (ra : exec.retriableAction W Context_ Cloud) (ctx : Context_) (c : Cloud)
    (Inv : W -> Prop) (w0 : W) :
  Inv w0 ->
  (forall w, Inv w ->
     exists events e w1 w2,
       exec.Run (exec.a ra) ctx c w = (events, Some e, w1)
       /\ exec.IsRetriable (exec.retryProvider ra) e w1 = (true, w2)
       /\ ctx_Err ctx w2 = None
       /\ Inv w2) ->
  forall fuel : nat,
  exists w' : W,
    Inv w'
    /\ exec.retriableAction_Run (exec.counting_ctx_Err ctx_Err) fuel
         (exec.counting ra) ctx c (w0, exec.noCalls) =
       exec.StillRunning (w', {| exec.runs := fuel; exec.checks := fuel |}).
Proof.
  intros Hinv Hstep fuel.
  assert (forall (w : W) (cs : exec.Calls), Inv w ->
            exists w', Inv w'
              /\ exec.retriableAction_Run (exec.counting_ctx_Err ctx_Err) fuel
                   (exec.counting ra) ctx c (w, cs) =
                 exec.StillRunning
                   (w', {| exec.runs := exec.runs cs + fuel;
                           exec.checks := exec.checks cs + fuel |})) as Hgen.
  { induction fuel as [|fuel IH]; intros w cs Hw.
    - exists w. split; [done|]. simpl. rewrite !Nat.add_0_r. by destruct cs.
    - destruct (Hstep w Hw) as (events & e & w1 & w2 & Hrun & Hretry & Hlive & Hw2).
      rewrite retriableAction_Run_S. simpl. rewrite Hrun. simpl.
      rewrite Hretry. unfold exec.counting_ctx_Err at 1. simpl.
      rewrite (bool_decide_eq_true_2 _ Hlive).
      destruct (IH w2 {| exec.runs := S (exec.runs cs);
                         exec.checks := S (exec.checks cs) |} Hw2)
        as (w' & Hw' & ->).
      exists w'. split; [done|]. simpl. repeat f_equal; lia. }
  destruct (Hgen w0 exec.noCalls Hinv) as (w' & Hw' & ->). by exists w'.
Qed.

Lemma retriableAction_Run_never_gives_up_witness :
  exists h : exec.TestHeap,
    exec.shouldRetry (exec.frp h) = true
    /\ exec.retriableAction_Run (exec.counting_ctx_Err exec.TestContext_Err)
         50 (exec.counting
               (exec.NewRetriableAction failingAction
                  exec.fakeRetryProvider_RetryProvider))
         exec.Background tt (exec.testHeap (-1) true, exec.noCalls) =
       exec.StillRunning (h, {| exec.runs := 50; exec.checks := 50 |}).
Proof.
  apply (retriableAction_Run_never_gives_up exec.TestContext_Err
           (exec.NewRetriableAction failingAction
              exec.fakeRetryProvider_RetryProvider)
           exec.Background tt
           (fun h => exec.shouldRetry (exec.frp h) = true)
           (exec.testHeap (-1) true)).
  - reflexivity.
  - intros h Hh. eexists _, _, _, _. split; [reflexivity|]. simpl.
    unfold exec.fakeRetryProvider_IsRetriable. simpl. rewrite Hh.
    split; [reflexivity|]. split; reflexivity.
Defined.

(** ** The fakes of the retry tests *)

Lemma int_wrap_small (z : Z) : - 2 ^ 63 <= z < 2 ^ 63 -> int_wrap z = z.
Proof. intros H. unfold int_wrap. rewrite Z.mod_small; lia. Qed.

(** A run of the fake action: one more on the counter, and an error while
    the threshold is above it. *)
Lemma fakeAction_Run_heapAt (ctx : exec.TestContext) (r n c : Z) (b : bool) :
  - 2 ^ 63 <= r + 1 < 2 ^ 63 ->
  exec.Run (exec.a exec.testRetriableAction) ctx tt (heapAt r n c b) =
  ([], (if bool_decide (n > r + 1)
        then Some (errorString "Action in error") else None),
   heapAt (r + 1) n c b).
Proof.
  intros Hr. simpl. unfold exec.fakeAction_Run. simpl.
  rewrite int_wrap_small by done. by case_bool_decide.
Qed.

(** A call of the fake provider: one more on the counter, and its fixed
    answer. *)
Lemma fakeRetryProvider_IsRetriable_heapAt (e : error) (r n c : Z) (b : bool) :
  - 2 ^ 63 <= c + 1 < 2 ^ 63 ->
  exec.IsRetriable (exec.retryProvider exec.testRetriableAction) e
    (heapAt r n c b) =
  (b, heapAt r n (c + 1) b).
Proof.
  intros Hc. simpl. unfold exec.fakeRetryProvider_IsRetriable. simpl.
  by rewrite int_wrap_small by done.
Qed.

(** Below its threshold the fake action fails and the loop goes on. *)
Lemma fakeAction_iteration (k : nat) (r c n : Z) :
  0 <= r -> 0 <= c -> r + Z.of_nat k < n -> n < 2 ^ 63 ->
  c + Z.of_nat k < 2 ^ 63 ->
  exec.iteration exec.TestContext_Err k exec.testRetriableAction
    exec.Background tt (heapAt r n c true) =
  Some (heapAt (r + Z.of_nat k) n (c + Z.of_nat k) true).
Proof.
  revert r c. induction k as [|k IH]; intros r c Hr Hc Hrun Hn Hctr.
  - simpl. by rewrite !Z.add_0_r.
  - assert (0 < 2 ^ 63) as Hpos by reflexivity.
    rewrite iteration_S. rewrite fakeAction_Run_heapAt by lia.
    rewrite bool_decide_eq_true_2 by lia.
    rewrite fakeRetryProvider_IsRetriable_heapAt by lia.
    cbn [andb exec.TestContext_Err]. rewrite bool_decide_eq_true_2 by done.
    rewrite IH by lia. unfold heapAt. f_equal. f_equal; f_equal; lia.
Qed.

(** The fake action with threshold [n >= 1] fails [n - 1] times and then
    succeeds: with a provider that answers true, under
    [context.Background()], [Run] returns a nil error after [n] runs and
    [n - 1] checks, which the counters of the fakes show as well. *)
Theorem fakeAction_Run_threshold (n : Z) (fuel : nat) :
  1 <= n < 2 ^ 63 ->
  (Z.to_nat n <= fuel)%nat ->
  exec.retriableAction_Run (exec.counting_ctx_Err exec.TestContext_Err) fuel
    (exec.counting exec.testRetriableAction) exec.Background tt
    (exec.testHeap n true, exec.noCalls) =
  exec.Returned [] None
    (heapAt n n (n - 1) true,
     {| exec.runs := Z.to_nat n; exec.checks := Z.to_nat n - 1 |}).
Proof.
  intros Hn Hfuel. assert (0 < 2 ^ 63) as Hpos by reflexivity.
  pose proof (fakeAction_iteration (Z.to_nat n - 1) 0 0 n) as Hk.
  rewrite !Z.add_0_l in Hk.
  replace (Z.of_nat (Z.to_nat n - 1)) with (n - 1) in Hk by lia.
  specialize (Hk ltac:(lia) ltac:(lia) ltac:(lia) ltac:(lia) ltac:(lia)).
  replace fuel with ((Z.to_nat n - 1) + S (fuel - Z.to_nat n))%nat by lia.
  rewrite (retriableAction_Run_iteration _ _ _ _ (Z.to_nat n - 1) _ _ _
             (counting_iteration exec.TestContext_Err exec.testRetriableAction
                exec.Background tt _ _ _ exec.noCalls Hk)).
  rewrite retriableAction_Run_S.
  cbn [exec.counting exec.a exec.NewRetriableAction exec.countingAction
       exec.Run fst snd].
  rewrite fakeAction_Run_heapAt by lia.
  rewrite bool_decide_eq_false_2 by lia.
  simpl. unfold heapAt. f_equal. f_equal; f_equal; try f_equal; lia.
Qed.

Lemma fakeAction_Run_threshold_witness :
  exec.retriableAction_Run (exec.counting_ctx_Err exec.TestContext_Err) 40
    (exec.counting exec.testRetriableAction) exec.Background tt
    (exec.testHeap 12 true, exec.noCalls) =
  exec.Returned [] None
    (heapAt 12 12 (12 - 1) true,
     {| exec.runs := Z.to_nat 12; exec.checks := Z.to_nat 12 - 1 |}).
Proof. apply (fakeAction_Run_threshold 12 40); [lia|vm_compute; lia]. Defined.

(** With a threshold of at most 1, and so with the -1 of
    [TestRetriableActionWithContextCancel], the fake action succeeds at its
    first run: whatever the context and the provider, [Run] returns a nil
    error after one run and no check. *)
Theorem fakeAction_Run_low_threshold (n : Z) (b : bool)
    (ctx : exec.TestContext) (fuel : nat) :
  n <= 1 ->
  (1 <= fuel)%nat ->
  exec.retriableAction_Run (exec.counting_ctx_Err exec.TestContext_Err) fuel
    (exec.counting exec.testRetriableAction) ctx tt
    (exec.testHeap n b, exec.noCalls) =
  exec.Returned [] None
    (heapAt 1 n 0 b, {| exec.runs := 1; exec.checks := 0 |}).
Proof.
  intros Hn Hfuel. destruct fuel as [|fuel]; [lia|].
  rewrite retriableAction_Run_S. simpl. unfold exec.fakeAction_Run. simpl.
  change (int_wrap (0 + 1)) with 1.
  by rewrite bool_decide_eq_false_2 by lia.
Qed.

Lemma fakeAction_Run_low_threshold_witness :
  exec.retriableAction_Run (exec.counting_ctx_Err exec.TestContext_Err) 3
    (exec.counting exec.testRetriableAction) (exec.WithDeadline 0) tt
    (exec.testHeap (-1) true, exec.noCalls) =
  exec.Returned [] None
    (heapAt 1 (-1) 0 true, {| exec.runs := 1; exec.checks := 0 |}).
Proof.
  apply (fakeAction_Run_low_threshold (-1) true (exec.WithDeadline 0) 3); lia.
Defined.

(** ** More on the diff of BackendService nodes *)

Section MoreDiffFacts.

Context {BackendService Val : Type}.
Variable fmt_v : Val -> string.
Variable resource_Diff :
  BackendService -> BackendService -> api.DiffResult Val + error.

Local Abbreviation Diff :=
  (backendservice.backendServiceNode_Diff fmt_v resource_Diff).
Local Abbreviation onScheme :=
  (fun delta : api.DiffItem Val =>
     api.Path_ delta = backendservice.LoadBalancingSchemePath).

(** What [Diff] returns, when it returns: a plan with a nil error, or a nil
    plan with an error, never both and never neither.  A plan means that it
    was given a BackendService node whose resource could be diffed; an
    error means that it was given a node of another type, or that the
    resource diff failed, and then the error wraps that of the resource
    diff.  (Nothing is said of the calls that do not return: the nodes here
    are non-nil and have their resource, and Go panics on the others.) *)
Theorem backendServiceNode_Diff_plan_or_error
    (n : backendservice.backendServiceNode BackendService Val)
    (gotNode : backendservice.Node BackendService Val)
    (plan : option (rnode.PlanDetails Val)) (err : option error) :
  Diff n gotNode = (plan, err) ->
  (exists pd got diff,
     plan = Some pd /\ err = None
     /\ gotNode = backendservice.BackendServiceNode got
     /\ resource_Diff (backendservice.resource got)
          (backendservice.resource n) = inl diff)
  \/
  (exists e,
     plan = None /\ err = Some e
     /\ ((forall got, gotNode <> backendservice.BackendServiceNode got)
         \/ exists got err0,
              gotNode = backendservice.BackendServiceNode got
              /\ resource_Diff (backendservice.resource got)
                   (backendservice.resource n) = inr err0
              /\ e = wrapError "BackendServiceNode: Diff " err0)).
Proof.
  destruct gotNode as [got| |].
  - unfold backendservice.backendServiceNode_Diff.
    destruct (resource_Diff _ _) as [diff|err0] eqn:Hdiff.
    + destruct (api.HasDiff diff); simpl.
      * destruct (backendservice.planItems _ _ _) as [[] details];
          intros H; injection H as <- <-; left; by eexists _, got, diff.
      * intros H. injection H as <- <-. left. by eexists _, got, diff.
    + intros H. injection H as <- <-. right. eexists. split_and!; [done..|].
      right. by exists got, err0.
  - intros H. injection H as <- <-. right. eexists. split_and!; [done..|].
    by left.
  - intros H. injection H as <- <-. right. eexists. split_and!; [done..|].
    by left.
Qed.

(** A plan that [Diff] returns is Nothing without a diff, or Recreate or
    Update with the diff of the resources: [Diff] never plans a Create or a
    Delete, and the plan carries a diff exactly when there is something to
    do. *)
Theorem backendServiceNode_Diff_plan_shape
    (n : backendservice.backendServiceNode BackendService Val)
    (gotNode : backendservice.Node BackendService Val)
    (pd : rnode.PlanDetails Val) (err : option error) :
  Diff n gotNode = (Some pd, err) ->
  err = None
  /\ (rnode.Operation_ pd = rnode.OpNothing /\ rnode.Diff pd = None
      \/ (rnode.Operation_ pd = rnode.OpRecreate
          \/ rnode.Operation_ pd = rnode.OpUpdate)
         /\ exists diff,
              rnode.Diff pd = Some diff /\ api.HasDiff diff = true).
Proof.
  destruct gotNode as [got| |]; [|discriminate..].
  unfold backendservice.backendServiceNode_Diff.
  destruct (resource_Diff _ _) as [diff|err0]; [|discriminate].
  destruct (api.HasDiff diff) eqn:Hhas; simpl.
  - destruct (backendservice.planItems _ _ _) as [[] details];
      intros H; injection H as <- <-; (split; [done|]); right; simpl;
      (split; [by auto|]); by exists diff.
  - intros H. injection H as <- <-. split; [done|]. by left.
Qed.

(** The loop, in full: [needsRecreate] is set when some delta is on
    [LoadBalancingScheme], and [details] gets the text of each such delta,
    in the order of the diff. *)
Lemma planItems_details (items : list (api.DiffItem Val))
    (needsRecreate : bool) (details : list string) :
  backendservice.planItems fmt_v items (needsRecreate, details) =
  (match filter onScheme items with
   | [] => needsRecreate
   | _ => true
   end,
   details ++ (recreateText fmt_v <$> filter onScheme items)).
Proof.
  revert needsRecreate details.
  induction items as [|delta items IH]; intros needsRecreate details.
  - simpl. by rewrite app_nil_r.
  - unfold backendservice.planItems in *. simpl.
    unfold api.Equal. case_bool_decide as Hpath.
    + rewrite filter_cons_True by done.
      unfold backendservice.planRecreate. rewrite IH. simpl.
      rewrite <- app_assoc. simpl. f_equal.
      by destruct (filter _ items).
    + rewrite filter_cons_False by done. apply IH.
Qed.

(** When the load-balancing scheme changes, the reason that [Diff] gives
    names every delta on [LoadBalancingScheme], each with its two values,
    in the order of the diff and separated by commas, and no other
    delta. *)
Theorem backendServiceNode_Diff_recreate_why
    (n got : backendservice.backendServiceNode BackendService Val)
    (diff : api.DiffResult Val) :
  resource_Diff (backendservice.resource got) (backendservice.resource n) =
    inl diff ->
  (exists delta, delta ∈ api.Items diff /\ onScheme delta) ->
  Diff n (backendservice.BackendServiceNode got) =
  (Some {| rnode.Operation_ := rnode.OpRecreate;
           rnode.Why :=
             "BackendService needs to be recreated: "
             +:+ Join (recreateText fmt_v <$> filter onScheme (api.Items diff))
                   ", ";
           rnode.Diff := Some diff |}, None).
Proof.
  intros Hdiff (delta & Hin & Hon).
  unfold backendservice.backendServiceNode_Diff. rewrite Hdiff.
  assert (api.HasDiff diff = true) as ->.
  { unfold api.HasDiff. apply bool_decide_eq_true_2.
    destruct (api.Items diff); [by apply elem_of_nil in Hin|simpl; lia]. }
  simpl. rewrite planItems_details.
  assert (delta ∈ filter onScheme (api.Items diff)) as Hfiltered
    by (by apply list_elem_of_filter).
  destruct (filter onScheme (api.Items diff)) as [|d ds];
    [by apply elem_of_nil in Hfiltered|done].
Qed.

End MoreDiffFacts.

(** A resource diff that fails: the error of [Diff] wraps it. *)
Lemma backendServiceNode_Diff_plan_or_error_witness :
  let n := fixtures.node fixtures.bsID fixtures.bsPortName in
  let got := fixtures.node fixtures.bsID fixtures.bsInternal in
  let failing (a b : fixtures.BackendService)
    : api.DiffResult string + error :=
    inr (errorString "IncompatibleVersion") in
  (exists pd got' diff,
     (None : option (rnode.PlanDetails string)) = Some pd
     /\ Some (wrapError "BackendServiceNode: Diff "
                (errorString "IncompatibleVersion")) = None
     /\ backendservice.BackendServiceNode got =
        backendservice.BackendServiceNode got'
     /\ failing (backendservice.resource got') (backendservice.resource n) =
        inl diff)
  \/
  (exists e,
     (None : option (rnode.PlanDetails string)) = None
     /\ Some (wrapError "BackendServiceNode: Diff "
                (errorString "IncompatibleVersion")) = Some e
     /\ ((forall got', backendservice.BackendServiceNode got <>
                       backendservice.BackendServiceNode got')
         \/ exists got' err0,
              backendservice.BackendServiceNode got =
              backendservice.BackendServiceNode got'
              /\ failing (backendservice.resource got')
                   (backendservice.resource n) = inr err0
              /\ e = wrapError "BackendServiceNode: Diff " err0)).
Proof.
  intros n got failing.
  apply (backendServiceNode_Diff_plan_or_error id failing n
           (backendservice.BackendServiceNode got)).
  reflexivity.
Defined.

(** The "update .PortName" case of [TestDiffAndActions]. *)
Lemma backendServiceNode_Diff_plan_shape_witness :
  let pd : rnode.PlanDetails string :=
    {| rnode.Operation_ := rnode.OpUpdate;
       rnode.Why := "update in place (changed=TODO)";
       rnode.Diff :=
         Some {| api.Items :=
           [ {| api.Path_ := api.Field (api.Pointer []) "PortName";
                api.A := ""; api.B := "example-pn" |} ] |} |} in
  (None : option error) = None
  /\ (rnode.Operation_ pd = rnode.OpNothing /\ rnode.Diff pd = None
      \/ (rnode.Operation_ pd = rnode.OpRecreate
          \/ rnode.Operation_ pd = rnode.OpUpdate)
         /\ exists diff,
              rnode.Diff pd = Some diff /\ api.HasDiff diff = true).
Proof.
  intros pd.
  apply (backendServiceNode_Diff_plan_shape id fixtures.Diff
           (fixtures.node fixtures.bsID fixtures.bsPortName)
           (backendservice.BackendServiceNode
              (fixtures.node fixtures.bsID fixtures.bsInternal))
           pd None).
  reflexivity.
Defined.

(** Scenario 4 of the spec with a change of protocol as well: the reason
    names the one change of scheme. *)
Lemma backendServiceNode_Diff_recreate_why_witness :
  let diff : api.DiffResult string :=
    {| api.Items :=
         [ {| api.Path_ := backendservice.LoadBalancingSchemePath;
              api.A := "INTERNAL_SELF_MANAGED"; api.B := "EXTERNAL" |};
           {| api.Path_ := api.Field (api.Pointer []) "Protocol";
              api.A := "TCP"; api.B := "UDP" |} ] |} in
  backendservice.backendServiceNode_Diff id fixtures.Diff
    (fixtures.node fixtures.bsID fixtures.bsExternalUDP)
    (backendservice.BackendServiceNode
       (fixtures.node fixtures.bsID fixtures.bsInternal)) =
  (Some {| rnode.Operation_ := rnode.OpRecreate;
           rnode.Why :=
             "BackendService needs to be recreated: "
             +:+ Join (recreateText id <$>
                       filter (fun delta : api.DiffItem string =>
                                 api.Path_ delta =
                                 backendservice.LoadBalancingSchemePath)
                         (api.Items diff))
                   ", ";
           rnode.Diff := Some diff |}, None).
Proof.
  intros diff.
  apply (backendServiceNode_Diff_recreate_why id fixtures.Diff
           (fixtures.node fixtures.bsID fixtures.bsExternalUDP)
           (fixtures.node fixtures.bsID fixtures.bsInternal) diff).
  - reflexivity.
  - eexists. split; [left|reflexivity].
Defined.

(** ** From the plan to the actions *)

Section PlanToActions.

Context {BackendService GA Val W Context_ : Type}.
Variable fmt_v : Val -> string.
Variable resource_Diff :
  BackendService -> BackendService -> api.DiffResult Val + error.
Variable ToGA : BackendService -> GA + error.
Variable ResourceID_String : ResourceID -> string.
Variable Operation_String : rnode.Operation -> string.
Variable CreateActions :
  backendservice.backendServiceNode BackendService Val -> BackendService ->
  list (exec.Action W Context_ (backendservice.Cloud GA W Context_))
  * option error.
Variable DeleteActions :
  backendservice.Node BackendService Val ->
  backendservice.backendServiceNode BackendService Val ->
  list (exec.Action W Context_ (backendservice.Cloud GA W Context_))
  * option error.
Variables RecreateActions UpdateActions :
  backendservice.Node BackendService Val ->
  backendservice.backendServiceNode BackendService Val -> BackendService ->
  list (exec.Action W Context_ (backendservice.Cloud GA W Context_))
  * option error.
Variable NewExistsAction :
  ResourceID -> exec.Action W Context_ (backendservice.Cloud GA W Context_).

Local Abbreviation Diff :=
  (backendservice.backendServiceNode_Diff fmt_v resource_Diff).
Local Abbreviation Actions :=
  (backendservice.backendServiceNode_Actions Operation_String
     CreateActions DeleteActions RecreateActions UpdateActions
     NewExistsAction).
Local Abbreviation Run :=
  (backendservice.backendServiceUpdateAction_Run ToGA ResourceID_String).

(** The operations that [Diff] plans. *)
Lemma backendServiceNode_Diff_operations
    (n : backendservice.backendServiceNode BackendService Val)
    (gotNode : backendservice.Node BackendService Val)
    (pd : rnode.PlanDetails Val) (err : option error) :
  Diff n gotNode = (Some pd, err) ->
  rnode.Operation_ pd = rnode.OpNothing
  \/ rnode.Operation_ pd = rnode.OpRecreate
  \/ rnode.Operation_ pd = rnode.OpUpdate.
Proof.
  destruct gotNode as [got| |]; [|discriminate..].
  unfold backendservice.backendServiceNode_Diff.
  destruct (resource_Diff _ _) as [diff|err0]; [|discriminate].
  destruct (api.HasDiff diff); simpl.
  - destruct (backendservice.planItems _ _ _) as [[] details];
      intros H; injection H as <- <-; auto.
  - intros H. injection H as <- <-. auto.
Qed.

(** [Actions] accepts every plan that [Diff] makes.  With the plan of a
    [Diff] in the plan slot of a node, [Actions] never answers "invalid
    plan op": it returns the one exists-action of the node's id for
    Nothing, and what [rnode.RecreateActions] or [rnode.UpdateActions]
    return, given the node and its whole resource, for Recreate and
    Update. *)
Theorem backendServiceNode_Actions_of_Diff
    (n nw : backendservice.backendServiceNode BackendService Val)
    (gotNode g : backendservice.Node BackendService Val)
    (pd : rnode.PlanDetails Val) :
  Diff n gotNode = (Some pd, None) ->
  rnode.Plan (backendservice.NodeBase nw) = Some pd ->
  rnode.Operation_ pd = rnode.OpNothing
    /\ Actions nw g =
       ([NewExistsAction (rnode.ID (backendservice.NodeBase nw))], None)
  \/ rnode.Operation_ pd = rnode.OpRecreate
     /\ Actions nw g = RecreateActions g nw (backendservice.resource nw)
  \/ rnode.Operation_ pd = rnode.OpUpdate
     /\ Actions nw g = UpdateActions g nw (backendservice.resource nw).
Proof.
  intros Hdiff Hplan.
  unfold backendservice.backendServiceNode_Actions. rewrite Hplan. simpl.
  destruct (backendServiceNode_Diff_operations n gotNode pd None Hdiff)
    as [Hop|[Hop|Hop]]; rewrite Hop; auto.
Qed.

(** The failures of the update action.  A run fails in four ways: the GA
    form of the resource cannot be made, or the key is neither global nor
    regional, and then the cloud is not called and the world is as it was;
    or the [Update] call of [BackendServices] or of [RegionBackendServices]
    fails, and then its error comes back wrapped. *)
Theorem backendServiceUpdateAction_Run_failure
    (act : backendservice.backendServiceUpdateAction BackendService Val)
    (ctx : Context_) (cl : backendservice.Cloud GA W Context_)
    (w w' : W) (events : exec.EventList) (e : error) :
  Run act ctx cl w = (events, Some e, w') <->
  events = []
  /\ ((exists err0,
         ToGA (backendservice.resource (backendservice.want act)) = inr err0
         /\ e = wrapError
                  ("backendServiceUpdateAction Run("
                   +:+ ResourceID_String (backendservice.id act)
                   +:+ "): ToGA: ") err0
         /\ w' = w)
      \/ exists res,
           ToGA (backendservice.resource (backendservice.want act)) = inl res
           /\ (meta.Type_ (Key (backendservice.id act)) = meta.Zonal
               /\ e = errorString
                        ("backendServiceUpdateAction Run("
                         +:+ ResourceID_String (backendservice.id act)
                         +:+ "): invalid key type")
               /\ w' = w
               \/ exists err0,
                    e = wrapError
                          ("backendServiceUpdateAction Run("
                           +:+ ResourceID_String (backendservice.id act)
                           +:+ "): Update: ") err0
                    /\ (meta.Type_ (Key (backendservice.id act)) = meta.Global
                        /\ backendservice.BackendServices_Update cl ctx
                             (Key (backendservice.id act)) res w =
                           (Some err0, w')
                        \/ meta.Type_ (Key (backendservice.id act)) =
                             meta.Regional
                           /\ backendservice.RegionBackendServices_Update cl
                                ctx (Key (backendservice.id act)) res w =
                              (Some err0, w')))).
Proof.
  unfold backendservice.backendServiceUpdateAction_Run.
  destruct (ToGA _) as [res|err0].
  - destruct (meta.Type_ _) eqn:Htype.
    + destruct (backendservice.BackendServices_Update cl ctx _ res w)
        as [[e0|] w1] eqn:Hcall; split.
      * intros H. injection H as <- <- <-. split; [done|]. right.
        exists res. split; [done|]. right. exists e0. split; [done|].
        by left.
      * intros [-> [(err0 & H & _)|(res' & Hres & Hcase)]]; [discriminate H|].
        injection Hres as <-.
        destruct Hcase as [[H _]|(err0 & -> & [[_ H]|[H _]])];
          [discriminate H| |discriminate H].
        rewrite Hcall in H. by injection H as <- <-.
      * intros H. discriminate H.
      * intros [_ [(err0 & H & _)|(res' & Hres & Hcase)]]; [discriminate H|].
        injection Hres as <-.
        destruct Hcase as [[H _]|(err0 & _ & [[_ H]|[H _]])];
          [discriminate H| |discriminate H].
        rewrite Hcall in H. discriminate H.
    + destruct (backendservice.RegionBackendServices_Update cl ctx _ res w)
        as [[e0|] w1] eqn:Hcall; split.
      * intros H. injection H as <- <- <-. split; [done|]. right.
        exists res. split; [done|]. right. exists e0. split; [done|].
        by right.
      * intros [-> [(err0 & H & _)|(res' & Hres & Hcase)]]; [discriminate H|].
        injection Hres as <-.
        destruct Hcase as [[H _]|(err0 & -> & [[H _]|[_ H]])];
          [discriminate H|discriminate H|].
        rewrite Hcall in H. by injection H as <- <-.
      * intros H. discriminate H.
      * intros [_ [(err0 & H & _)|(res' & Hres & Hcase)]]; [discriminate H|].
        injection Hres as <-.
        destruct Hcase as [[H _]|(err0 & _ & [[H _]|[_ H]])];
          [discriminate H|discriminate H|].
        rewrite Hcall in H. discriminate H.
    + split.
      * intros H. injection H as <- <- <-. split; [done|]. right.
        exists res. split; [done|]. by left.
      * intros [-> [(err0 & H & _)|(res' & Hres & Hcase)]]; [discriminate H|].
        destruct Hcase as [(_ & -> & ->)|(err0 & _ & [[H _]|[H _]])];
          [done|discriminate H..].
  - split.
    + intros H. injection H as <- <- <-. split; [done|]. left. by exists err0.
    + intros [-> [(err0' & H & -> & ->)|(res & H & _)]]; [|discriminate H].
      by injection H as ->.
Qed.

(** Whatever happens, a run returns the event list that [DryRun] announces,
    the empty one: the update action emits no event of its own. *)
Theorem backendServiceUpdateAction_Run_events
    (act : backendservice.backendServiceUpdateAction BackendService Val)
    (ctx : Context_) (cl : backendservice.Cloud GA W Context_) (w : W) :
  (Run act ctx cl w).1.1 =
  backendservice.backendServiceUpdateAction_DryRun act.
Proof.
  unfold backendservice.backendServiceUpdateAction_Run,
    backendservice.backendServiceUpdateAction_DryRun.
  destruct (ToGA _) as [res|err0]; [|done].
  destruct (meta.Type_ _); [| |done].
  - by destruct (backendservice.BackendServices_Update cl ctx _ res w)
      as [[e0|] w1].
  - by destruct (backendservice.RegionBackendServices_Update cl ctx _ res w)
      as [[e0|] w1].
Qed.

End PlanToActions.

Lemma string_app_assoc (s1 s2 s3 : string) :
  (s1 +:+ s2) +:+ s3 = s1 +:+ (s2 +:+ s3).
Proof.
  induction s1 as [|ch s1 IH]; [done|].
  change (String ch ((s1 +:+ s2) +:+ s3) = String ch (s1 +:+ (s2 +:+ s3))).
  by rewrite IH.
Qed.

(** Every error of a run says which action failed: its text begins with
    ["backendServiceUpdateAction Run("], the id and ["): "]. *)
Theorem backendServiceUpdateAction_Run_error_text
    {BackendService GA Val W Context_ : Type}
    (ToGA : BackendService -> GA + error)
    (ResourceID_String : ResourceID -> string)
    (act : backendservice.backendServiceUpdateAction BackendService Val)
    (ctx : Context_) (cl : backendservice.Cloud GA W Context_)
    (w w' : W) (events : exec.EventList) (e : error) :
  backendservice.backendServiceUpdateAction_Run ToGA ResourceID_String
    act ctx cl w = (events, Some e, w') ->
  exists rest : string,
    Error e =
    runErrorPrefix (ResourceID_String (backendservice.id act)) +:+ rest.
Proof.
  unfold backendservice.backendServiceUpdateAction_Run, runErrorPrefix.
  set (idText := ResourceID_String (backendservice.id act)).
  destruct (ToGA _) as [res|err0].
  - destruct (meta.Type_ _).
    + destruct (backendservice.BackendServices_Update cl ctx _ res w)
        as [[e0|] w1]; intros H; [|discriminate H].
      injection H as <- <- <-. exists ("Update: " +:+ Error e0).
      simpl. by rewrite !string_app_assoc.
    + destruct (backendservice.RegionBackendServices_Update cl ctx _ res w)
        as [[e0|] w1]; intros H; [|discriminate H].
      injection H as <- <- <-. exists ("Update: " +:+ Error e0).
      simpl. by rewrite !string_app_assoc.
    + intros H. injection H as <- <- <-. exists "invalid key type".
      simpl. by rewrite !string_app_assoc.
  - intros H. injection H as <- <- <-. exists ("ToGA: " +:+ Error err0).
    simpl. by rewrite !string_app_assoc.
Qed.

(** The "update .PortName" case of [TestDiffAndActions]: [ng.Diff(nw)], the
    plan set on [nw], then [nw.Actions(ng)]. *)
Lemma backendServiceNode_Actions_of_Diff_witness :
  let pd : rnode.PlanDetails string :=
    {| rnode.Operation_ := rnode.OpUpdate;
       rnode.Why := "update in place (changed=TODO)";
       rnode.Diff :=
         Some {| api.Items :=
           [ {| api.Path_ := api.Field (api.Pointer []) "PortName";
                api.A := ""; api.B := "example-pn" |} ] |} |} in
  let nw := fixtures.planned pd (fixtures.node fixtures.bsID fixtures.bsPortName) in
  let ng := backendservice.BackendServiceNode
              (fixtures.node fixtures.bsID fixtures.bsInternal) in
  let Actions :=
    backendservice.backendServiceNode_Actions fixtures.Operation_String
      fixtures.noActions fixtures.noActions
      (fun got n _ => fixtures.noActions got n) fixtures.UpdateActions
      (fun id => fixtures.asAction
                   (fixtures.updateAction id fixtures.bsPortName)) in
  rnode.Operation_ pd = rnode.OpNothing
    /\ Actions nw ng =
       ([fixtures.asAction
           (fixtures.updateAction (rnode.ID (backendservice.NodeBase nw))
              fixtures.bsPortName)], None)
  \/ rnode.Operation_ pd = rnode.OpRecreate
     /\ Actions nw ng = fixtures.noActions ng nw
  \/ rnode.Operation_ pd = rnode.OpUpdate
     /\ Actions nw ng =
        fixtures.UpdateActions ng nw (backendservice.resource nw).
Proof.
  intros pd nw ng Actions.
  apply (backendServiceNode_Actions_of_Diff id fixtures.Diff
           fixtures.Operation_String
           fixtures.noActions fixtures.noActions
           (fun got n _ => fixtures.noActions got n) fixtures.UpdateActions
           (fun id => fixtures.asAction
                        (fixtures.updateAction id fixtures.bsPortName))
           (fixtures.node fixtures.bsID fixtures.bsPortName) nw ng ng pd).
  - reflexivity.
  - reflexivity.
Defined.

(** An update action whose id has a zonal key. *)
Lemma backendServiceUpdateAction_Run_failure_witness :
  backendservice.backendServiceUpdateAction_Run fixtures.ToGA
    fixtures.ResourceID_String
    (fixtures.updateAction
       {| ProjectID := "proj"; Key := meta.ZonalKey "bs" "us-central1-a" |}
       fixtures.bsPortName)
    tt fixtures.recordingCloud [] =
  ([], Some (errorString
               "backendServiceUpdateAction Run(compute/backendServices:proj/bs): invalid key type"),
   []).
Proof.
  apply (proj2 (backendServiceUpdateAction_Run_failure fixtures.ToGA
                  fixtures.ResourceID_String _ tt fixtures.recordingCloud
                  [] [] [] _)).
  split; [reflexivity|]. right. exists fixtures.bsPortName.
  split; [reflexivity|]. left. split; [reflexivity|]. split; reflexivity.
Defined.

Lemma backendServiceUpdateAction_Run_error_text_witness :
  exists rest : string,
    "backendServiceUpdateAction Run(compute/backendServices:proj/bs): invalid key type" =
    runErrorPrefix "compute/backendServices:proj/bs" +:+ rest.
Proof.
  apply (backendServiceUpdateAction_Run_error_text fixtures.ToGA
           fixtures.ResourceID_String
           (fixtures.updateAction
              {| ProjectID := "proj";
                 Key := meta.ZonalKey "bs" "us-central1-a" |}
              fixtures.bsPortName)
           tt fixtures.recordingCloud [] [] []
           (errorString
              "backendServiceUpdateAction Run(compute/backendServices:proj/bs): invalid key type")).
  reflexivity.
Defined.

(** ** The comparison of the end-to-end tests *)

Lemma cmp_true (hc1 hc2 : e2e.HealthCheck) :
  e2e.cmp hc1 hc2 = true <->
  e2e.Name hc1 = e2e.Name hc2
  /\ e2e.Type_ hc1 = e2e.Type_ hc2
  /\ e2e.CheckIntervalSec hc1 = e2e.CheckIntervalSec hc2
  /\ exists h1 h2,
       e2e.HttpHealthCheck hc1 = Some h1
       /\ e2e.HttpHealthCheck hc2 = Some h2
       /\ e2e.Port h1 = e2e.Port h2
       /\ e2e.PortName h1 = e2e.PortName h2.
Proof.
  unfold e2e.cmp.
  destruct (e2e.HttpHealthCheck hc1) as [h1|],
           (e2e.HttpHealthCheck hc2) as [h2|];
    rewrite !bool_decide_not; repeat case_bool_decide; simpl;
    split; try done;
    try (intros (? & ? & ? & ? & ? & ? & ? & ? & ?); simplify_eq; done).
  intros _. split_and!; try done. by exists h1, h2.
Qed.

(** [cmp] looks at the name, the type, the check interval and the port and
    port name of the HTTP check, and at nothing else.  It is symmetric and
    transitive, but it holds of a health check and itself only when the
    health check has an HTTP check: two health checks without one never
    compare equal. *)
Theorem cmp_partial_equivalence (hc1 hc2 hc3 : e2e.HealthCheck) :
  (e2e.cmp hc1 hc2 = true <->
   e2e.Name hc1 = e2e.Name hc2
   /\ e2e.Type_ hc1 = e2e.Type_ hc2
   /\ e2e.CheckIntervalSec hc1 = e2e.CheckIntervalSec hc2
   /\ exists h1 h2,
        e2e.HttpHealthCheck hc1 = Some h1
        /\ e2e.HttpHealthCheck hc2 = Some h2
        /\ e2e.Port h1 = e2e.Port h2
        /\ e2e.PortName h1 = e2e.PortName h2)
  /\ e2e.cmp hc1 hc2 = e2e.cmp hc2 hc1
  /\ (e2e.cmp hc1 hc2 = true -> e2e.cmp hc2 hc3 = true ->
      e2e.cmp hc1 hc3 = true)
  /\ (e2e.cmp hc1 hc1 = true <-> e2e.HttpHealthCheck hc1 <> None).
Proof.
  split; [apply cmp_true|]. split_and!.
  - destruct (e2e.cmp hc1 hc2) eqn:H12, (e2e.cmp hc2 hc1) eqn:H21; try done.
    + apply cmp_true in H12 as (? & ? & ? & h1 & h2 & ? & ? & ? & ?).
      assert (e2e.cmp hc2 hc1 = true) as Hsym; [|congruence].
      apply cmp_true. split_and!; try done. by exists h2, h1.
    + apply cmp_true in H21 as (? & ? & ? & h2 & h1 & ? & ? & ? & ?).
      assert (e2e.cmp hc1 hc2 = true) as Hsym; [|congruence].
      apply cmp_true. split_and!; try done. by exists h1, h2.
  - intros (? & ? & ? & h1 & h2 & ? & H2 & ? & ?)%cmp_true
           (? & ? & ? & h2' & h3 & H2' & ? & ? & ?)%cmp_true.
    rewrite H2 in H2'. injection H2' as <-.
    apply cmp_true. split_and!; try congruence.
    exists h1, h3. split_and!; congruence.
  - rewrite cmp_true. split.
    + intros (_ & _ & _ & h1 & _ & H & _). congruence.
    + intros H. split_and!; try done.
      destruct (e2e.HttpHealthCheck hc1) as [h1|]; [|done].
      by exists h1, h1.
Qed.

Lemma cmp_partial_equivalence_witness :
  e2e.cmp (e2e.defaultHTTPHC "hc-e2e-name")
    {| e2e.Name := "hc-e2e-name"; e2e.Type_ := "HTTP";
       e2e.CheckIntervalSec := 10;
       e2e.HttpHealthCheck :=
         Some {| e2e.Port := 80; e2e.PortName := "http";
                 e2e.RequestPath := "/healthz" |};
       e2e.SelfLink := "https://www.googleapis.com/compute/v1/projects/p/global/healthChecks/hc-e2e-name";
       e2e.Description := "observed" |} = true.
Proof.
  apply (proj1 (cmp_partial_equivalence _ _ (e2e.defaultHTTPHC "hc-e2e-name"))).
  split_and!; try reflexivity. eexists _, _. split_and!; reflexivity.
Defined.

(** ** More on the rate limiters *)

(** Registration and lookup.  After [Register(service, operation, r)] a key
    with that service and operation gets [r], whatever its project and
    whatever was registered before; and the lookup of a key is as before
    unless the new pair is the key's own pair, its service default or its
    operation default. *)
Theorem Register_lookup {W Context_ : Type}
    (rl : cloud.CompositeRateLimiter W Context_) (r : cloud.RateLimiter W Context_)
    (service operation : string) (key : cloud.RateLimitKey) :
  (cloud.Service key = service -> cloud.Operation key = operation ->
   cloud.lookupRateLimiter (cloud.Register rl service operation r) key = r)
  /\ ((cloud.Service key, cloud.Operation key) <> (service, operation) ->
      (cloud.Service key, "") <> (service, operation) ->
      ("", cloud.Operation key) <> (service, operation) ->
      cloud.lookupRateLimiter (cloud.Register rl service operation r) key =
      cloud.lookupRateLimiter rl key).
Proof.
  unfold cloud.lookupRateLimiter, cloud.Register. simpl. split.
  - intros -> ->. by rewrite lookup_insert_eq.
  - intros H1 H2 H3. by rewrite !lookup_insert_ne.
Qed.

(** The second step of [TestCompositeRateLimiter_Table]'s set-up: after
    ("networks", "get") is registered, ("networks", "get") keys get the new
    limiter and keys of other services are served as before. *)
Lemma Register_lookup_witness :
  cloud.Accept
    (cloud.lookupRateLimiter cloud.tableRateLimiter
       {| cloud.ProjectID := "projectB"; cloud.Operation := "get";
          cloud.Service := "networks" |})
    cloud.Background None [0; 0; 0] = (None, [0; 0; 1])
  /\ cloud.Accept
       (cloud.lookupRateLimiter cloud.tableRateLimiter
          {| cloud.ProjectID := "projectB"; cloud.Operation := "get";
             cloud.Service := "service-does-not-exist" |})
       cloud.Background None [0; 0; 0] = (None, [1; 0; 0]).
Proof.
  unfold cloud.tableRateLimiter. split.
  - rewrite (proj1 (Register_lookup _ (cloud.CountingRateLimiter 2)
                      "networks" "get" _)); reflexivity.
  - rewrite (proj2 (Register_lookup _ (cloud.CountingRateLimiter 2)
                      "networks" "get" _)); [|discriminate..].
    rewrite (proj2 (Register_lookup _ (cloud.CountingRateLimiter 1)
                      "networks" "" _)); [|discriminate..].
    reflexivity.
Defined.

Lemma sharesCounter_AcceptAll
    (pp : cloud.PerProjectRateLimiter cloud.Counters cloud.TestContext)
    (keys : list (option cloud.RateLimitKey)) (c0 : Z) :
  sharesCounter pp ->
  sharesCounter
    (cloud.PerProjectRateLimiter_AcceptAll pp cloud.Background keys [c0]).1
  /\ (cloud.PerProjectRateLimiter_AcceptAll pp cloud.Background keys [c0]).2 =
     [Nat.iter (length keys) (fun z => int_wrap (z + 1)) c0].
Proof.
  revert pp c0. induction keys as [|key keys IH]; intros pp c0 Hpp; [done|].
  destruct Hpp as [Hfac Hall].
  cbn [cloud.PerProjectRateLimiter_AcceptAll length].
  rewrite Nat.iter_succ_r.
  unfold cloud.PerProjectRateLimiter_Accept.
  destruct (cloud.limiters pp !! cloud.bucket key) as [rl|] eqn:Hrl.
  - rewrite (Hall _ _ Hrl). simpl. by apply IH.
  - rewrite Hfac. simpl. apply IH. split; [done|]. simpl.
    intros p rl Hp. destruct (decide (cloud.bucket key = p)) as [<-|Hne].
    + rewrite lookup_insert_eq in Hp. by injection Hp as <-.
    + rewrite lookup_insert_ne in Hp by done. by eapply Hall.
Qed.

(** P7 of the spec, [TestPerProjectRateLimiter_Shared] for any calls: with
    the shared factory, whatever the projects of the keys, nil keys
    included, every call is admitted by the one shared limiter, whose
    counter ends incremented once for each call; no other counter
    appears. *)
Theorem PerProjectRateLimiter_Shared
    (keys : list (option cloud.RateLimitKey)) :
  (cloud.PerProjectRateLimiter_AcceptAll
     (cloud.NewPerProjectRateLimiter
        (cloud.SharedRateLimiterFactory (cloud.CountingRateLimiter 0)))
     cloud.Background keys [0]).2 =
  [cloud.incremented (length keys)].
Proof.
  apply sharesCounter_AcceptAll. split; [done|].
  intros p rl H. simpl in H. by rewrite lookup_empty in H.
Qed.
